(** * eddymotion.model: DIPY model adapters

    A shallow embedding of [eddymotion/model.py]: the RAS+B gradient
    adapter [_rasb2dipy], the trivial models ([TrivialB0Model],
    [AverageDWModel]), the chunked wrappers ([DTIModel], [DKIModel]) and
    [ModelFactory.init].

    Conventions.
    - Python exceptions are values of [exn]; a call that may raise returns
      a [result].
    - numpy arrays are kept with their shape next to their contents, in
      row-major (C) order, which is the order boolean-mask selection and
      boolean-mask assignment follow.
    - Floating-point arithmetic is not interpreted: the element type and
      the numpy reductions used by the module form the interface
      [Numeric]. *)

From stdpp Require Import base option list strings gmap sorting.
From Stdlib Require QArith Qround.

Local Open Scope string_scope.
Local Open Scope list_scope.

(** ** Exceptions and results *)

Inductive exn : Type :=
  | ValueError (msg : string)
  | KeyError (key : string)
  | IndexError (msg : string)
  | TypeError (msg : string)
  | AttributeError (attr : string)
  | NotImplementedError (msg : string).

Inductive result (A : Type) : Type :=
  | Ok (a : A)
  | Raise (e : exn).
Arguments Ok {A} a.
Arguments Raise {A} e.

#[global] Instance result_ret : MRet result := λ A a, Ok a.
#[global] Instance result_bind : MBind result := λ A B k r,
  match r with
  | Ok a => k a
  | Raise e => Raise e
  end.

(** ** The gradient table adapter *)

Module Gradient.
Section Adapter.
Context {V : Type}.

(** What [np.asanyarray] can hand to the adapter: a 0-d, 1-d or 2-d
    array.  A 2-d array carries its shape, so that the empty shapes
    [(0, c)] and [(r, 0)] stay distinct. *)
Inductive ndarray : Type :=
  | Arr0 (x : V)
  | Arr1 (xs : list V)
  | Arr2 (r c : nat) (rows : list (list V)).

Definition ndim (a : ndarray) : nat :=
  match a with Arr0 _ => 0 | Arr1 _ => 1 | Arr2 _ _ _ => 2 end.

Definition size (a : ndarray) : nat :=
  match a with
  | Arr0 _ => 1
  | Arr1 xs => length xs
  | Arr2 r c _ => r * c
  end.

Definition shape (a : ndarray) : list nat :=
  match a with
  | Arr0 _ => []
  | Arr1 xs => [length xs]
  | Arr2 r c _ => [r; c]
  end.

(** The contents of a 2-d array agree with its shape. *)
Definition wf_rows (r c : nat) (rows : list (list V)) : Prop :=
  length rows = r ∧ Forall (λ row, length row = c) rows.

(** [a.T] on the rows of an array with [c] columns. *)
Fixpoint transpose_rows (c : nat) (rows : list (list V)) : list (list V) :=
  match c with
  | 0 => []
  | S c' => omap head rows :: transpose_rows c' (map tail rows)
  end.

(** [gradient[..., np.newaxis]] on a 1-d array: shape [(n, 1)]. *)
Definition newaxis_last (xs : list V) : list (list V) :=
  map (λ x, [x]) xs.

(** dipy's [GradientTable], kept as the two arrays [gradient_table] is
    called with: the b-values and the [N x 3] direction matrix. *)
Record GradientTable : Type := gradient_table {
  bvals : list V;
  bvecs : list (list V)
}.

Definition warning : string :=
  "Warning: make sure gradient information is not transposed!".

(** [gradient[3, :]] *)
Definition row3 (r : nat) (rows : list (list V)) : result (list V) :=
  if decide (3 < r) then
    match rows !! 3 with
    | Some row => Ok row
    | None => Ok []
    end
  else Raise (IndexError "index 3 is out of bounds for axis 0").

(** The adapter proper, from the point where the array is 2-d. *)
Definition orient (r c : nat) (rows : list (list V))
  : list string * (nat * nat * list (list V)) :=
  if decide (r ≠ 4) then ([], (c, r, transpose_rows c rows))
  else if decide (c = 4) then ([warning], (r, c, rows))
  else ([], (r, c, rows)).

Definition table_of (r c : nat) (rows : list (list V)) : result GradientTable :=
  b ← row3 r rows;
  Ok (gradient_table b (transpose_rows c (take 3 rows))).

(** [_rasb2dipy]: what is printed, and the table or the exception. *)
Definition _rasb2dipy (gradient : ndarray) : list string * result GradientTable :=
  match gradient with
  | Arr0 _ => ([], Raise (IndexError "tuple index out of range"))
  | Arr1 xs =>
      if decide (length xs ≠ 4) then
        ([], Raise (ValueError "Missing gradient information."))
      else
        let '(out, (r, c, rows)) := orient (length xs) 1 (newaxis_last xs) in
        (out, table_of r c rows)
  | Arr2 r c rows =>
      let '(out, (r', c', rows')) := orient r c rows in
      (out, table_of r' c' rows')
  end.
End Adapter.
Arguments ndarray : clear implicits.
Arguments GradientTable : clear implicits.
End Gradient.

(** ** numpy: element type, arrays and the operations the module calls *)

(** The element type of the image arrays with the numpy operations the
    module applies to it.  [astype_float32] is [.astype("float32")] (and
    the cast done when a value is stored into a float32 array), [fzero]
    the float32 zero of [np.zeros_like], [np_max] is [S0.max()], [clip]
    is [np.clip(_, a_min=1e-5, a_max=1.0)], [percentile a q] is
    [np.percentile(a, q)], [gt] is [>] and [np_mean] the mean of one
    vector along its only axis. *)
Class Numeric (V : Type) : Type := {
  fzero : V;
  astype_float32 : V → V;
  np_max : list V → V;
  divide : V → V → V;
  clip : V → V;
  percentile : list V → nat → V;
  gt : V → V → bool;
  np_mean : list V → V
}.

(** A 3-d array (the spatial grid), flattened in row-major order. *)
Record array3 (A : Type) : Type := mk_array3 {
  ashape : nat * nat * nat;
  aflat : list A
}.
Arguments mk_array3 {A} ashape aflat.
Arguments ashape {A} a.
Arguments aflat {A} a.

(** A 4-d volume: three spatial axes and the measurement axis; one entry
    of [vox] per voxel, in row-major order, holding that voxel's
    [nmeas] measurements. *)
Record volume (V : Type) : Type := mk_volume {
  spatial : nat * nat * nat;
  nmeas : nat;
  vox : list (list V)
}.
Arguments mk_volume {V} spatial nmeas vox.
Arguments spatial {V} v.
Arguments nmeas {V} v.
Arguments vox {V} v.

(** An array of any rank, as returned by [predict]. *)
Record ndarr (V : Type) : Type := mk_ndarr {
  nshape : list nat;
  nflat : list V
}.
Arguments mk_ndarr {V} nshape nflat.
Arguments nshape {V} n.
Arguments nflat {V} n.

Definition shape_list (s : nat * nat * nat) : list nat :=
  let '(x, y, z) := s in [x; y; z].

Definition amap {A B} (f : A → B) (a : array3 A) : array3 B :=
  mk_array3 (ashape a) (map f (aflat a)).

(** Number of [True] entries of a flattened mask. *)
Definition count_true (m : list bool) : nat := length (filter (λ b, b = true) m).

(** [xs[mask]] on flattened arrays of one shape: the entries at the
    [True] positions, in row-major order. *)
Fixpoint select {A} (m : list bool) (xs : list A) : list A :=
  match m, xs with
  | true :: m', x :: xs' => x :: select m' xs'
  | false :: m', _ :: xs' => select m' xs'
  | _, _ => []
  end.

(** [a[mask]] for a boolean [mask] of the rank of [a]: numpy demands
    equal shapes. *)
Definition bool_index {A} (shape : nat * nat * nat) (xs : list A)
    (mask : array3 bool) : result (list A) :=
  if decide (ashape mask = shape) then Ok (select (aflat mask) xs)
  else Raise (IndexError "boolean index did not match indexed array").

(** [np.array_split(ary, n)] along axis 0: [len % n] sections of
    [len // n + 1] rows, then sections of [len // n] rows. *)
Fixpoint split_sizes {A} (sizes : list nat) (l : list A) : list (list A) :=
  match sizes with
  | [] => []
  | s :: ss => take s l :: split_sizes ss (drop s l)
  end.

Definition section_sizes (total n : nat) : list nat :=
  replicate (total mod n) (S (total / n)) ++ replicate (n - total mod n) (total / n).

Definition array_split {A} (l : list A) (n : nat) : result (list (list A)) :=
  if decide (n = 0) then Raise (ValueError "number sections must be larger than 0.")
  else Ok (split_sizes (section_sizes (length l) n) l).

(** [np.squeeze] on a shape: the axes of length one are dropped. *)
Definition squeeze (shape : list nat) : list nat := filter (λ d, d ≠ 1) shape.

(** [retval[mask] = values] on a zero-filled float32 array: the [True]
    positions receive the values in order, cast to float32. *)
Fixpoint scatter `{Numeric V} (m : list bool) (vals : list V) : list V :=
  match m with
  | [] => []
  | false :: m' => fzero :: scatter m' vals
  | true :: m' =>
      match vals with
      | v :: vs => astype_float32 v :: scatter m' vs
      | [] => fzero :: scatter m' []
      end
  end.

(** The same assignment with a 0-d value, broadcast to every [True]
    position. *)
Definition scatter_scalar `{Numeric V} (m : list bool) (v : V) : list V :=
  map (λ b : bool, if b then astype_float32 v else fzero) m.

(** [retval = np.zeros_like(mask, dtype="float32"); retval[mask] = predicted]
    for a squeezed [predicted] of shape [dims]: numpy broadcasts a 0-d
    value, takes a 1-d value of the length of the selection and rejects
    any other shape. *)
Definition assign_masked `{Numeric V} (mask : array3 bool) (dims : list nat)
    (flat : list V) : result (ndarr V) :=
  match dims, flat with
  | [], v :: _ => Ok (mk_ndarr (shape_list (ashape mask)) (scatter_scalar (aflat mask) v))
  | [d], _ =>
      if decide (d = count_true (aflat mask)) then
        Ok (mk_ndarr (shape_list (ashape mask)) (scatter (aflat mask) flat))
      else Raise (ValueError "NumPy boolean array indexing assignment cannot assign input values to the output values where the mask is true")
  | _, _ => Raise (ValueError "shape mismatch: value array could not be broadcast to indexing result")
  end.

(** ** Python values passed as keyword options

    [PLit] is a floating-point literal of the source, kept as its text;
    [PObj] a class or object known by its name only. *)

Inductive pyval (V : Type) : Type :=
  | PNone
  | PBool (b : bool)
  | PInt (z : Z)
  | PStr (s : string)
  | PFloat (v : V)
  | PLit (text : string)
  | PArray (a : array3 V)
  | PMask (a : array3 bool)
  | PObj (name : string).
Arguments PNone {V}.
Arguments PBool {V} b.
Arguments PInt {V} z.
Arguments PStr {V} s.
Arguments PFloat {V} v.
Arguments PLit {V} text.
Arguments PArray {V} a.
Arguments PMask {V} a.
Arguments PObj {V} name.

(** ** The wrapped reconstruction library

    dipy's [TensorModel] and [DiffusionKurtosisModel] are collaborators:
    constructing a model from a gradient table and options, fitting it to
    an array of voxels (its leading shape and one row of measurements per
    voxel) and predicting from the fit (one row of signals per fitted
    voxel, one column per direction of the table; the leading shape of
    the result is [fit.shape]). *)
Class Dipy (V : Type) : Type := {
  dmodel : Type;
  dfit : Type;
  TensorModel : Gradient.GradientTable V → gmap string (pyval V) → dmodel;
  DiffusionKurtosisModel : Gradient.GradientTable V → gmap string (pyval V) → dmodel;
  model_fit : dmodel → list nat → list (list V) → result dfit;
  fit_shape : dfit → list nat;
  fit_predict : dfit → Gradient.GradientTable V → option (list V) → pyval V
                → result (list (list V));
  model_predict : dmodel → Gradient.GradientTable V → option (list V)
                  → result (list nat * list (list V))
}.

(** A slot that holds the model before [fit] and its fit afterwards. *)
Inductive submodel `{Dipy V} : Type :=
  | Unfit (m : dmodel)
  | Fit (f : dfit).

(** [_model_fit(model, data)]: [model.fit(data)]; a fit object has no
    [fit] method. *)
Definition _model_fit `{Dipy V} (model : submodel) (lead : list nat)
    (data : list (list V)) : result dfit :=
  match model with
  | Unfit m => model_fit m lead data
  | Fit _ => Raise (AttributeError "fit")
  end.

(** The keyword options the wrappers pass on to dipy. *)
Definition allowed_kwargs : list string :=
  ["min_signal"; "return_S0_hat"; "fit_method"; "weighting"; "sigma"; "jac"].

Definition filter_kwargs {V} (kwargs : gmap string (pyval V)) : gmap string (pyval V) :=
  filter (λ kv, kv.1 ∈ allowed_kwargs) kwargs.

(** [np.clip(S0.astype("float32") / S0.max(), a_min=1e-5, a_max=1.0)];
    [max] of an empty array raises. *)
Definition normalize_S0 `{Numeric V} (S0 : array3 V) : result (array3 V) :=
  match aflat S0 with
  | [] => Raise (ValueError "zero-size array to reduction operation maximum which has no identity")
  | _ => Ok (amap (λ x, clip (divide (astype_float32 x) (np_max (aflat S0)))) S0)
  end.

(** [self._S0 > np.percentile(self._S0, 35)] *)
Definition threshold_mask `{Numeric V} (S0 : array3 V) : array3 bool :=
  amap (λ x, gt x (percentile (aflat S0) 35)) S0.

(** [np.ones(data.shape[:3], dtype=bool)] *)
Definition ones_mask {V} (data : volume V) : array3 bool :=
  let '(x, y, z) := spatial data in
  mk_array3 (x, y, z) (replicate (x * y * z) true).

(** [np.concatenate(arrays, axis=0)] on arrays given by shape and rows
    (the last axis): the shapes may differ in the first axis only. *)
Fixpoint concatenate {V} (arrays : list (list nat * list (list V)))
    : result (list nat * list (list V)) :=
  match arrays with
  | [] => Raise (ValueError "need at least one array to concatenate")
  | [(sh, rows)] =>
      match sh with
      | [] => Raise (ValueError "zero-dimensional arrays cannot be concatenated")
      | _ => Ok (sh, rows)
      end
  | (sh, rows) :: rest =>
      '(sh', rows') ← concatenate rest;
      match sh, sh' with
      | d :: tl, d' :: tl' =>
          if decide (tl = tl') then Ok ((d + d') :: tl, rows ++ rows')
          else Raise (ValueError "all the input array dimensions except for the concatenation axis must match exactly")
      | _, _ => Raise (ValueError "zero-dimensional arrays cannot be concatenated")
      end
  end.

(** All results of a list of tasks in task order, or the exception of
    the first task that raised. *)
Fixpoint gather {A} (tasks : list (result A)) : result (list A) :=
  match tasks with
  | [] => Ok []
  | t :: ts => a ← t; as' ← gather ts; Ok (a :: as')
  end.

(** [retval = np.zeros_like(None, dtype="float32"); retval[None] = predicted]:
    with no mask the result is a 0-d array, which only a 0-d value fits. *)
Definition assign_unmasked `{Numeric V} (dims : list nat) (flat : list V)
    : result (ndarr V) :=
  match dims, flat with
  | [], v :: _ => Ok (mk_ndarr [] [astype_float32 v])
  | _, _ => Raise (ValueError "shape mismatch: value array could not be broadcast to indexing result")
  end.

(** [mask > 0] on a boolean array: the entries are compared as 0 and 1. *)
Definition mask_gt0 (mask : array3 bool) : array3 bool :=
  amap (λ b : bool, bool_decide (0 < Z.b2z b)%Z) mask.

(** [mask.astype(bool)] on a boolean array. *)
Definition astype_bool (mask : array3 bool) : array3 bool :=
  amap (λ b : bool, bool_decide (Z.b2z b ≠ 0%Z)) mask.

(** The optional baseline map, normalized. *)
Definition normalize_opt `{Numeric V} (S0 : option (array3 V))
    : result (option (array3 V)) :=
  match S0 with
  | Some s => s' ← normalize_S0 s; Ok (Some s')
  | None => Ok None
  end.

(** ** [DTIModel] *)

Module DTI.
Section Model.
Context {V : Type} `{!Numeric V} `{!Dipy V}.

(** [os.cpu_count()] *)
Variable cpu_count : nat.

Record DTIModel : Type := mk {
  _model : list submodel;
  _S0 : option (list V);
  _mask : option (array3 bool)
}.

(** [n_threads = kwargs.pop("n_threads", 0) or 0] followed by
    [n_threads if n_threads > 0 else cpu_count()].  A value that is not
    an integer, a boolean or [None] is not a thread count and Python
    fails on it. *)
Definition thread_count (kwargs : gmap string (pyval V)) : result nat :=
  match kwargs !! "n_threads" with
  | None | Some PNone => Ok cpu_count
  | Some (PInt z) => Ok (if decide (0 < z)%Z then Z.to_nat z else cpu_count)
  | Some (PBool b) => Ok (if b then 1 else cpu_count)
  | Some _ => Raise (TypeError "n_threads")
  end.

Definition __init__ (gtab : Gradient.GradientTable V) (S0 : option (array3 V))
    (mask : option (array3 bool)) (kwargs : gmap string (pyval V))
    : result DTIModel :=
  n_threads ← thread_count kwargs;
  S0n ← normalize_opt S0;
  let mask0 := mask_gt0 <$> mask in
  let mask1 :=
    match mask0, S0n with
    | None, Some s => Some (threshold_mask s)
    | _, _ => mask0
    end in
  S0m ← match S0n, mask1 with
        | Some s, Some m => sel ← bool_index (ashape s) (aflat s) m; Ok (Some sel)
        | _, _ => Ok None
        end;
  let kwargs' := filter_kwargs (delete "n_threads" kwargs) in
  Ok (mk (replicate n_threads (Unfit (TensorModel gtab kwargs'))) S0m mask1).

Definition fit (self : DTIModel) (data : volume V) : result DTIModel :=
  let _nthreads := length (_model self) in
  let mask := default (ones_mask data) (_mask self) in
  rows ← bool_index (spatial data) (vox data) mask;
  data_chunks ← array_split rows _nthreads;
  fits ← gather (zip_with (λ model chunk,
            _model_fit model [length chunk; nmeas data] chunk)
          (_model self) data_chunks);
  Ok (mk (map Fit fits) (_S0 self) (Some mask)).

(** [_predict_sub]: [submodel.predict(gradient, S0=S0_chunk, step=step)];
    the result has shape [fit.shape + (len(bvals),)].  An unfit
    [TensorModel] has a [predict] without a [step] argument. *)
Definition _predict_sub (sub : submodel) (gradient : Gradient.GradientTable V)
    (S0_chunk : option (list V)) (step : pyval V)
    : result (list nat * list (list V)) :=
  match sub with
  | Fit f =>
      rows ← fit_predict f gradient S0_chunk step;
      Ok (fit_shape f ++ [length (Gradient.bvals gradient)], rows)
  | Unfit _ => Raise (TypeError "predict() got an unexpected keyword argument 'step'")
  end.

(** The baseline chunks of [predict]. *)
Definition S0_chunks (self : DTIModel) : result (list (option (list V))) :=
  match _S0 self with
  | None => Ok (replicate (length (_model self)) None)
  | Some s => chunks ← array_split s (length (_model self)); Ok (map Some chunks)
  end.

(** [predict]: what is printed, and the array or the exception.  The
    gradient is converted once per task, while the tasks are created. *)
Definition predict (self : DTIModel) (gradient : Gradient.ndarray V)
    (step : pyval V) : list string * result (ndarr V) :=
  match S0_chunks self with
  | Raise e => ([], Raise e)
  | Ok S0 =>
      match zip (_model self) S0 with
      | [] => ([], Raise (ValueError "max_workers must be greater than 0"))
      | tasks =>
          let '(out, converted) := Gradient._rasb2dipy gradient in
          (mjoin (replicate (length tasks) out),
           gtab ← converted;
           predicted ← gather (map (λ t, _predict_sub t.1 gtab t.2 step) tasks);
           '(sh, rows) ← concatenate predicted;
           match _mask self with
           | Some mask => assign_masked mask (squeeze sh) (concat rows)
           | None => assign_unmasked (squeeze sh) (concat rows)
           end)
      end
  end.

End Model.
End DTI.

(** ** [DKIModel] *)

Module DKI.
Section Model.
Context {V : Type} `{!Numeric V} `{!Dipy V}.

Record DKIModel : Type := mk {
  _model : submodel;
  _S0 : option (list V);
  _mask : option (array3 bool)
}.

(** The mask is stored as given; it is cast only to subset the baseline
    map, and that subsetting is done whenever a mask is resolved, also
    when there is no baseline map to subset. *)
Definition __init__ (gtab : Gradient.GradientTable V) (S0 : option (array3 V))
    (mask : option (array3 bool)) (kwargs : gmap string (pyval V))
    : result DKIModel :=
  S0n ← normalize_opt S0;
  let mask1 :=
    match mask, S0n with
    | None, Some s => Some (threshold_mask s)
    | _, _ => mask
    end in
  S0m ← match mask1, S0n with
        | Some m, Some s =>
            sel ← bool_index (ashape s) (aflat s) (astype_bool m); Ok (Some sel)
        | Some m, None => Raise (TypeError "'NoneType' object is not subscriptable")
        | None, _ => Ok None
        end;
  Ok (mk (Unfit (DiffusionKurtosisModel gtab (filter_kwargs kwargs))) S0m mask1).

(** [data[self._mask, ...]]: the masked voxels, or, with no mask, the
    whole volume under a new leading axis ([None] indexes as
    [np.newaxis]). *)
Definition fit (self : DKIModel) (data : volume V) : result DKIModel :=
  '(lead, rows) ← match _mask self with
      | Some m =>
          rows ← bool_index (spatial data) (vox data) m; Ok ([length rows], rows)
      | None => Ok (1 :: shape_list (spatial data), vox data)
      end;
  f ← _model_fit (_model self) (lead ++ [nmeas data]) rows;
  Ok (mk (Fit f) (_S0 self) (_mask self)).

Definition predict (self : DKIModel) (gradient : Gradient.ndarray V)
    : list string * result (ndarr V) :=
  let '(out, converted) := Gradient._rasb2dipy gradient in
  (out,
   gtab ← converted;
   '(sh, rows) ← match _model self with
       | Fit f =>
           rows ← fit_predict f gtab (_S0 self) PNone;
           Ok (fit_shape f ++ [length (Gradient.bvals gtab)], rows)
       | Unfit m =>
           '(lead, rows) ← model_predict m gtab (_S0 self); Ok (lead, rows)
       end;
   let dims := squeeze sh in
   if decide (length dims = 3) then Ok (mk_ndarr dims (concat rows))
   else
     match _mask self with
     | Some mask => assign_masked mask dims (concat rows)
     | None => assign_unmasked dims (concat rows)
     end).

(** The prediction of the fitted model, flattened. *)
Definition prediction (self : DKIModel) (gtab : Gradient.GradientTable V) : list V :=
  match _model self with
  | Fit f =>
      match fit_predict f gtab (_S0 self) PNone with
      | Ok rows => concat rows
      | Raise _ => []
      end
  | Unfit _ => []
  end.
End Model.
End DKI.

(** ** The trivial models *)

Module B0.
Section Model.
Context {V : Type}.

Record TrivialB0Model : Type := mk { _S0 : pyval V }.

Definition __init__ (gtab : Gradient.ndarray V) (S0 : pyval V)
    : result TrivialB0Model :=
  match S0 with
  | PNone => Raise (ValueError "S0 must be provided")
  | _ => Ok (mk S0)
  end.

(** [fit] has an empty body: the instance is what it was. *)
Definition fit (self : TrivialB0Model) (data : volume V) : TrivialB0Model := self.

Definition predict (self : TrivialB0Model) (gradient : Gradient.ndarray V)
    : pyval V := _S0 self.

(** A client's calls on one instance, and the values its [predict]
    calls return in order. *)
Inductive call : Type :=
  | CallFit (data : volume V)
  | CallPredict (gradient : Gradient.ndarray V).

Fixpoint run (self : TrivialB0Model) (calls : list call)
    : TrivialB0Model * list (pyval V) :=
  match calls with
  | [] => (self, [])
  | CallFit data :: rest => run (fit self data) rest
  | CallPredict gradient :: rest =>
      let '(self', outs) := run self rest in (self', predict self gradient :: outs)
  end.
End Model.
Arguments TrivialB0Model : clear implicits.
Arguments call : clear implicits.
End B0.

Module Average.
Section Model.
Context {V : Type} `{!Numeric V}.

(** The one slot, [_data], is unset until [fit] assigns it. *)
Record AverageDWModel : Type := mk { _data : option (array3 V) }.

Definition __init__ (gtab : Gradient.ndarray V) : AverageDWModel := mk None.

(** [data.mean(-1)] *)
Definition mean_last (data : volume V) : array3 V :=
  mk_array3 (spatial data) (map np_mean (vox data)).

Definition fit (self : AverageDWModel) (data : volume V) : AverageDWModel :=
  mk (Some (mean_last data)).

(** Reading an unset slot raises [AttributeError]. *)
Definition predict (self : AverageDWModel) (gradient : Gradient.ndarray V)
    : result (array3 V) :=
  match _data self with
  | Some d => Ok d
  | None => Raise (AttributeError "_data")
  end.
End Model.
Arguments AverageDWModel : clear implicits.
End Average.

(** ** [ModelFactory] *)

Module ModelFactory.
Section Factory.
Context {V : Type} `{!Numeric V} `{!Dipy V}.
Variable cpu_count : nat.

(** [str.lower] on the ASCII letters; model names are byte strings. *)
Definition to_lower (c : Ascii.ascii) : Ascii.ascii :=
  let n := Ascii.nat_of_ascii c in
  if decide (65 ≤ n ∧ n ≤ 90)%nat then Ascii.ascii_of_nat (n + 32) else c.

Fixpoint lower (s : string) : string :=
  match s with
  | EmptyString => EmptyString
  | String c s' => String (to_lower c) (lower s')
  end.

(** [s.startswith(p)] *)
Definition startswith (s p : string) : bool := String.prefix p s.


(** What the factory returns.  [ShoreModel] (dipy) and [SFM4HMC]
    ([eddymotion.utils.model]) are kept as the arguments they are
    constructed with. *)
Inductive instance : Type :=
  | IB0 (m : B0.TrivialB0Model V)
  | IShore (gtab : Gradient.GradientTable V) (param : gmap string (pyval V))
  | ISFM (gtab : Gradient.GradientTable V) (param : gmap string (pyval V))
  | IDTI (m : DTI.DTIModel)
  | IDKI (m : DKI.DKIModel).

Definition shore_param : gmap string (pyval V) :=
  {[ "radial_order" := PInt 6; "zeta" := PInt 700;
     "lambdaN" := PLit "1e-8"; "lambdaL" := PLit "1e-8" ]}.

Definition sfm_param : gmap string (pyval V) :=
  {[ "isotropic" := PObj "ExponentialIsotropicModel" ]}.

(** [param.update(kwargs)]: the keyword options override the defaults. *)
Definition update (param kwargs : gmap string (pyval V)) : gmap string (pyval V) :=
  kwargs ∪ param.

(** Binding of the [S0=None] and [mask=None] parameters of the wrappers
    from the options.  Only arrays of the expected kind are interpreted;
    any other value is reported as a [TypeError]. *)
Definition S0_arg (param : gmap string (pyval V)) : result (option (array3 V)) :=
  match param !! "S0" with
  | None | Some PNone => Ok None
  | Some (PArray a) => Ok (Some a)
  | Some _ => Raise (TypeError "S0")
  end.

Definition mask_arg (param : gmap string (pyval V)) : result (option (array3 bool)) :=
  match param !! "mask" with
  | None | Some PNone => Ok None
  | Some (PMask a) => Ok (Some a)
  | Some _ => Raise (TypeError "mask")
  end.

(** [kwargs.pop("S0")]: a missing key raises [KeyError]. *)
Definition pop_S0 (kwargs : gmap string (pyval V)) : result (pyval V) :=
  match kwargs !! "S0" with
  | Some v => Ok v
  | None => Raise (KeyError "S0")
  end.

Definition init (gtab : Gradient.ndarray V) (model : string)
    (kwargs : gmap string (pyval V)) : list string * result instance :=
  if decide (lower model ∈ ["s0"; "b0"]) then
    ([], S0 ← pop_S0 kwargs; m ← B0.__init__ gtab S0; Ok (IB0 m))
  else
    let '(out, converted) := Gradient._rasb2dipy gtab in
    (out,
     gtab' ← converted;
     if startswith (lower model) "3dshore" then
       Ok (IShore gtab' (update shore_param kwargs))
     else if startswith (lower model) "sfm" then
       Ok (ISFM gtab' (update sfm_param kwargs))
     else if decide (lower model ∈ ["dti"; "dki"]) then
       S0 ← S0_arg kwargs;
       mask ← mask_arg kwargs;
       let rest := delete "mask" (delete "S0" kwargs) in
       if decide (lower model = "dti") then
         m ← DTI.__init__ cpu_count gtab' S0 mask rest; Ok (IDTI m)
       else
         m ← DKI.__init__ gtab' S0 mask rest; Ok (IDKI m)
     else Raise (NotImplementedError ("Unsupported model <" +:+ model +:+ ">."))).
End Factory.
End ModelFactory.

(** ** Vocabulary of the statements *)

Definition volume_size (s : nat * nat * nat) : nat :=
  let '(x, y, z) := s in x * y * z.

(** The flattened contents have the size the shape announces. *)
Definition wf_array3 {A} (a : array3 A) : Prop :=
  length (aflat a) = volume_size (ashape a).

Definition wf_volume {V} (d : volume V) : Prop :=
  length (vox d) = volume_size (spatial d).

(** The library honours the shapes: the fit of an array of voxels has
    the shape of the array less the measurement axis, and a prediction
    from it never fails and has one row per fitted voxel and one column
    per direction of the table. *)
Definition shape_contract `{Dipy V} : Prop :=
  ∀ m sh rows f,
    model_fit m sh rows = Ok f →
    fit_shape f = removelast sh
    ∧ ∀ g s0 st, ∃ out,
        fit_predict f g s0 st = Ok out
        ∧ length out = length rows
        ∧ Forall (λ r, length r = length (Gradient.bvals g)) out.

(** The prediction for an array of voxels when each voxel is predicted
    on its own by [voxel], from its measurements and its baseline value. *)
Definition whole_prediction `{Dipy V}
    (voxel : dmodel → nat → Gradient.GradientTable V → pyval V → list V → option V → list V)
    (m : dmodel) (n : nat) (g : Gradient.GradientTable V) (st : pyval V)
    (rows : list (list V)) (S0 : option (list V)) : list (list V) :=
  match S0 with
  | None => map (λ r, voxel m n g st r None) rows
  | Some s => zip_with (λ r x, voxel m n g st r (Some x)) rows s
  end.

(** The library is voxel-wise: fitting never fails, and the signals
    predicted for a voxel depend on the model, the table, the step, the
    measurements of that voxel and its baseline value only, as computed
    by [voxel]. *)
Definition voxelwise `{Dipy V}
    (voxel : dmodel → nat → Gradient.GradientTable V → pyval V → list V → option V → list V)
    : Prop :=
  ∀ m n rows, ∃ f,
      model_fit m [length rows; n] rows = Ok f
      ∧ fit_shape f = [length rows]
      ∧ ∀ g st S0,
          (∀ s, S0 = Some s → length s = length rows) →
          fit_predict f g S0 st = Ok (whole_prediction voxel m n g st rows S0).

(** Construction, [fit] and [predict] in sequence: the array [predict]
    returns, or the first exception. *)
Definition DTI_fit_predict `{Numeric V} `{Dipy V} (cpu_count : nat)
    (gtab : Gradient.GradientTable V) (S0 : option (array3 V))
    (mask : option (array3 bool)) (kwargs : gmap string (pyval V))
    (data : volume V) (gradient : Gradient.ndarray V) (step : pyval V)
    : result (ndarr V) :=
  m ← DTI.__init__ cpu_count gtab S0 mask kwargs;
  m' ← DTI.fit m data;
  (DTI.predict m' gradient step).2.

Definition DKI_fit_predict `{Numeric V} `{Dipy V}
    (gtab : Gradient.GradientTable V) (S0 : option (array3 V))
    (mask : option (array3 bool)) (kwargs : gmap string (pyval V))
    (data : volume V) (gradient : Gradient.ndarray V) : result (ndarr V) :=
  m ← DKI.__init__ gtab S0 mask kwargs;
  m' ← DKI.fit m data;
  (DKI.predict m' gradient).2.

(** A fit of [k] voxels under the contract. *)
Definition good_fit `{Dipy V} (f : dfit) (k : nat) : Prop :=
  fit_shape f = [k]
  ∧ ∀ g s0 st, ∃ out,
      fit_predict f g s0 st = Ok out
      ∧ length out = k
      ∧ Forall (λ r, length r = length (Gradient.bvals g)) out.



(** ** A concrete element type and a concrete library, for examples

    Exact rationals stand in for the floating-point numbers (numpy
    computes the same up to rounding), and a small voxel-wise library
    stands in for dipy. *)

Module Example.
Import QArith Qround.

Definition qsum (l : list Q) : Q := foldr (λ x acc, Qred (x + acc)) 0%Q l.

Definition qmax (l : list Q) : Q :=
  match l with
  | [] => 0%Q
  | x :: xs => foldr (λ y acc, if Qle_bool acc y then y else acc) x xs
  end.

Definition qclip (x : Q) : Q :=
  if Qle_bool x (1 # 100000) then (1 # 100000)%Q
  else if Qle_bool 1 x then 1%Q else x.

Definition qle (x y : Q) : Prop := Qle_bool x y = true.

#[global] Instance qle_dec x y : Decision (qle x y).
Proof. unfold qle. apply _. Defined.

(** [np.percentile] with linear interpolation between the two nearest
    ranks of the sorted array. *)
Definition qpercentile (l : list Q) (q : nat) : Q :=
  let sorted := merge_sort qle l in
  let pos := Qred ((Z.of_nat q # 100) * (Z.of_nat (length l - 1) # 1)) in
  let lo := Z.to_nat (Qfloor pos) in
  let frac := Qred (pos - (Qfloor pos # 1)) in
  match sorted !! lo, sorted !! S lo with
  | Some a, Some b => Qred (a + frac * (b - a))
  | Some a, None => a
  | _, _ => 0%Q
  end.

Definition qmean (l : list Q) : Q :=
  Qred (qsum l / (Z.of_nat (length l) # 1)).

#[global] Instance numeric_Q : Numeric Q := {|
  fzero := 0%Q;
  astype_float32 := Qred;
  np_max := qmax;
  divide := λ x y, Qred (x / y);
  clip := qclip;
  percentile := qpercentile;
  gt := λ x y, negb (Qle_bool x y);
  np_mean := qmean
|}.

(** The voxel-wise toy library: a fit keeps the shape and the rows it
    was given; the predicted signal of a voxel for a direction with
    b-value [b] is [s0 * (sum of the measurements) - b], with [s0 = 1]
    where no baseline value is supplied. *)
Definition toy_voxel (row : list Q) (s0 : option Q) (g : Gradient.GradientTable Q)
    : list Q :=
  map (λ b, Qred (default 1%Q s0 * qsum row - b)) (Gradient.bvals g).

Definition toy_predict (rows : list (list Q)) (g : Gradient.GradientTable Q)
    (S0 : option (list Q)) : list (list Q) :=
  imap (λ i row, toy_voxel row (S0 ≫= (λ s, s !! i)) g) rows.

#[global] Instance toy_dipy : Dipy Q := {|
  dmodel := Gradient.GradientTable Q * gmap string (pyval Q);
  dfit := list nat * list (list Q);
  TensorModel := λ g kw, (g, kw);
  DiffusionKurtosisModel := λ g kw, (g, kw);
  model_fit := λ _ sh rows, Ok (removelast sh, rows);
  fit_shape := fst;
  fit_predict := λ f g S0 _, Ok (toy_predict f.2 g S0);
  model_predict := λ _ _ _, Raise (TypeError "predict")
|}.

(** A single direction with its b-value, as the array [(4,)]. *)
Definition one_gradient : Gradient.ndarray Q := Gradient.Arr1 [1; 0; 0; 1000]%Q.

(** A table of two directions, as the array [(4, 2)]. *)
Definition gtab42 : Gradient.ndarray Q :=
  Gradient.Arr2 4%nat 2%nat [[1; 0]; [0; 1]; [0; 0]; [1000; 2000]]%Q.

(** A [(1, 2, 2, 2)] volume, a mask over it and a baseline map. *)
Definition data4 : volume Q :=
  mk_volume (1, 2, 2)%nat 2%nat [[1; 2]; [3; 4]; [5; 6]; [7; 8]]%Q.

Definition mask4 : array3 bool := mk_array3 (1, 2, 2)%nat [true; false; true; true].

Definition S04 : array3 Q := mk_array3 (1, 2, 2)%nat [10; 20; 30; 40]%Q.

(** The table [one_gradient] converts to, and an empty table. *)
Definition one_table : Gradient.GradientTable Q :=
  Gradient.gradient_table [1000]%Q [[1; 0; 0]]%Q.

Definition empty_table : Gradient.GradientTable Q := Gradient.gradient_table [] [].

(** The array [(2, 4)] that is the transpose of [gtab42]. *)
Definition gtab24 : Gradient.ndarray Q :=
  Gradient.Arr2 2%nat 4%nat [[1; 0; 0; 1000]; [0; 1; 0; 2000]]%Q.

(** A tensor wrapper with two sub-models over [mask4], and a kurtosis
    wrapper with [S04] and [mask4], as constructed and as fit to [data4]. *)
Definition dti_constructed : DTI.DTIModel :=
  Eval vm_compute in
    match DTI.__init__ 8 empty_table None (Some mask4) {[ "n_threads" := PInt 2 ]} with
    | Ok m => m
    | Raise _ => DTI.mk [] None None
    end.

Definition dti_fitted : DTI.DTIModel :=
  Eval vm_compute in
    match DTI.fit dti_constructed data4 with
    | Ok m => m
    | Raise _ => dti_constructed
    end.

Definition dki_constructed : DKI.DKIModel :=
  Eval vm_compute in
    match DKI.__init__ empty_table (Some S04) (Some mask4) ∅ with
    | Ok m => m
    | Raise _ => DKI.mk (Unfit (empty_table, ∅)) None None
    end.



(** An array of shape [(3, 5)]: no axis has length 4. *)
Definition gtab35 : Gradient.ndarray Q :=
  Gradient.Arr2 3%nat 5%nat
    [[1; 0; 0; 1000; 7]; [0; 1; 0; 2000; 8]; [0; 0; 1; 3000; 9]]%Q.

(** An array of shape [(4, 4)]. *)
Definition rows44 : list (list Q) :=
  [[1; 0; 0; 0]; [0; 1; 0; 0]; [0; 0; 1; 0]; [1000; 1000; 1000; 0]]%Q.

(** A mask of another shape than [data4] and [S04]. *)
Definition mask_other : array3 bool := mk_array3 (2, 2, 1)%nat [true; true; true; true].


(** A [(2, 2, 2, 1)] volume, and a kurtosis wrapper without a mask, as
    constructed and as fit to that volume. *)
Definition data8 : volume Q :=
  mk_volume (2, 2, 2)%nat 1%nat [[1]; [2]; [3]; [4]; [5]; [6]; [7]; [8]]%Q.

Definition dki_unmasked : DKI.DKIModel :=
  Eval vm_compute in
    match DKI.__init__ empty_table None None ∅ with
    | Ok m => m
    | Raise _ => DKI.mk (Unfit (empty_table, ∅)) None None
    end.

Definition dki_unmasked_fitted : DKI.DKIModel :=
  Eval vm_compute in
    match DKI.fit dki_unmasked data8 with
    | Ok m => m
    | Raise _ => dki_unmasked
    end.

(** A 1-d array that is one element short. *)
Definition short_gradient : Gradient.ndarray Q := Gradient.Arr1 [1; 2; 3]%Q.
End Example.

Local Open Scope nat_scope.

(** * Facts about the numpy layer *)

Section NumpyFacts.
Context {V : Type} `{!Numeric V}.
Implicit Types (m : list bool) (vals : list V).

Lemma count_true_cons b m :
  count_true (b :: m) = (if b then 1 else 0) + count_true m.
Proof.
  unfold count_true. rewrite filter_cons.
  destruct b; case_decide; simpl; done.
Qed.

Lemma count_true_replicate n : count_true (replicate n true) = n.
Proof. induction n as [|n IH]; [done|]. simpl. rewrite count_true_cons, IH. done. Qed.

Lemma select_length {A} m (xs : list A) :
  length m = length xs → length (select m xs) = count_true m.
Proof.
  revert xs. induction m as [|b m IH]; intros [|x xs] Hlen; simpl in *; try done.
  rewrite count_true_cons. destruct b; simpl; rewrite IH by lia; done.
Qed.






Lemma split_sizes_concat {A} sizes (l : list A) :
  concat (split_sizes sizes l) = take (sum_list sizes) l.
Proof.
  revert l. induction sizes as [|s sizes IH]; intros l; simpl; [by rewrite take_0|].
  by rewrite IH, take_take_drop.
Qed.

Lemma split_sizes_length {A} sizes (l : list A) :
  length (split_sizes sizes l) = length sizes.
Proof. revert l. induction sizes as [|s sizes IH]; intros l; simpl; [done|]. by rewrite IH. Qed.

Lemma split_sizes_lengths {A} sizes (l : list A) :
  sum_list sizes ≤ length l → map length (split_sizes sizes l) = sizes.
Proof.
  revert l. induction sizes as [|s sizes IH]; intros l Hsum; simpl in *; [done|].
  rewrite length_take, IH by (rewrite length_drop; lia). f_equal. lia.
Qed.

Lemma split_sizes_zip_with {A B C} (f : A → B → C) sizes (a : list A) (b : list B) :
  split_sizes sizes (zip_with f a b)
  = zip_with (zip_with f) (split_sizes sizes a) (split_sizes sizes b).
Proof.
  revert a b. induction sizes as [|s sizes IH]; intros a b; simpl; [done|].
  by rewrite zip_with_take, zip_with_drop, IH.
Qed.

Lemma split_sizes_map {A B} (f : A → B) sizes (a : list A) :
  split_sizes sizes (map f a) = map (map f) (split_sizes sizes a).
Proof.
  revert a. induction sizes as [|s sizes IH]; intros a; simpl; [done|].
  by rewrite <- fmap_take, <- fmap_drop, IH.
Qed.

Lemma section_sizes_sum total n : n ≠ 0 → sum_list (section_sizes total n) = total.
Proof.
  intros Hn. unfold section_sizes.
  rewrite sum_list_with_app, !sum_list_replicate.
  pose proof (Nat.div_mod_eq total n) as Hdm.
  pose proof (Nat.mod_upper_bound total n Hn) as Hlt. nia.
Qed.

Lemma section_sizes_length total n : n ≠ 0 → length (section_sizes total n) = n.
Proof.
  intros Hn. unfold section_sizes. rewrite length_app, !length_replicate.
  pose proof (Nat.mod_upper_bound total n Hn). lia.
Qed.

(** [array_split] into a positive number of sections succeeds; the
    sections are in order, cover the array and have the sizes numpy
    documents. *)
Lemma array_split_Ok {A} (l : list A) n :
  n ≠ 0 →
  array_split l n = Ok (split_sizes (section_sizes (length l) n) l)
  ∧ concat (split_sizes (section_sizes (length l) n) l) = l
  ∧ length (split_sizes (section_sizes (length l) n) l) = n
  ∧ map length (split_sizes (section_sizes (length l) n) l) = section_sizes (length l) n.
Proof.
  intros Hn. unfold array_split. rewrite decide_False by done.
  split; [done|]. split; [|split].
  - rewrite split_sizes_concat, section_sizes_sum by done. by rewrite take_ge.
  - by rewrite split_sizes_length, section_sizes_length.
  - apply split_sizes_lengths. by rewrite section_sizes_sum.
Qed.

Lemma gather_Ok {A} (l : list A) : gather (map Ok l) = Ok l.
Proof. induction l as [|a l IH]; simpl; [done|]. by rewrite IH. Qed.

Lemma gather_inv {A} (tasks : list (result A)) (rs : list A) :
  gather tasks = Ok rs → tasks = map Ok rs.
Proof.
  revert rs. induction tasks as [|t ts IH]; intros rs; simpl.
  - by intros [= <-].
  - destruct t as [a|e]; simpl; [|done].
    destruct (gather ts) as [rs'|e] eqn:E; simpl; [|done].
    intros [= <-]. simpl. by rewrite (IH rs').
Qed.

(** Arrays of shapes [(m_i, G)] concatenate to the array of shape
    [(sum of the m_i, G)] holding their rows in order. *)
Lemma concatenate_columns (G : nat) (arrays : list (list nat * list (list V))) :
  arrays ≠ [] →
  Forall (λ a, a.1 = [length a.2; G]) arrays →
  concatenate arrays = Ok ([length (concat arrays.*2); G], concat arrays.*2).
Proof.
  intros Hne Hall. induction Hall as [|[sh rows] rest Hsh Hrest IH]; [done|].
  simpl in Hsh. subst sh. destruct rest as [|b rest].
  - simpl. by rewrite app_nil_r.
  - change (concatenate (([length rows; G], rows) :: b :: rest))
      with ('(sh', rows') ← concatenate (b :: rest);
            match [length rows; G], sh' with
            | d :: tl, d' :: tl' =>
                if decide (tl = tl') then Ok ((d + d') :: tl, rows ++ rows')
                else Raise (ValueError "all the input array dimensions except for the concatenation axis must match exactly")
            | _, _ => Raise (ValueError "zero-dimensional arrays cannot be concatenated")
            end).
    rewrite IH by done. simpl. rewrite decide_True by done.
    do 3 f_equal. symmetry. apply length_app.
Qed.
End NumpyFacts.

(** * The gradient table adapter *)

Section GradientFacts.
Import Gradient.
Context {V : Type}.
Implicit Types (rows : list (list V)) (r c : nat).

Lemma transpose_rows_length c rows : length (transpose_rows c rows) = c.
Proof. revert rows. induction c as [|c IH]; intros rows; simpl; [done|]. by rewrite IH. Qed.

Lemma omap_head_length c rows :
  Forall (λ row, length row = S c) rows → length (omap head rows) = length rows.
Proof.
  induction 1 as [|row rows Hrow _ IH]; simpl; [done|].
  destruct row as [|x row]; simpl in *; [lia|].
  change (S (length (omap head rows)) = S (length rows)). by f_equal.
Qed.

Lemma Forall_tail_length c rows :
  Forall (λ row, length row = S c) rows →
  Forall (λ row, length row = c) (map tail rows).
Proof.
  intros H. apply Forall_fmap. eapply Forall_impl; [exact H|].
  intros [|x row]; simpl; lia.
Qed.

Lemma transpose_rows_widths c rows :
  Forall (λ row, length row = c) rows →
  Forall (λ col, length col = length rows) (transpose_rows c rows).
Proof.
  revert rows. induction c as [|c IH]; intros rows H; simpl; [constructor|].
  constructor.
  - by eapply omap_head_length.
  - eapply Forall_impl; [apply IH; by apply Forall_tail_length|].
    intros col Hcol. by rewrite Hcol, length_map.
Qed.

Lemma transpose_rows_cons r (h : list V) rows :
  transpose_rows r (h :: rows) = zip_with cons h (transpose_rows r rows) ∨ length h < r.
Proof.
  revert h rows. induction r as [|r IH]; intros h rows; simpl.
  - left. by destruct h.
  - destruct h as [|x h]; simpl; [right; lia|].
    destruct (IH h (map tail rows)) as [->|?]; [by left|right; lia].
Qed.

Lemma zip_heads_tails c rows :
  Forall (λ row, length row = S c) rows →
  zip_with cons (omap head rows) (map tail rows) = rows.
Proof.
  induction 1 as [|row rows Hrow _ IH]; simpl; [done|].
  destruct row as [|x row]; simpl in *; [lia|].
  change (zip_with cons (x :: omap head rows) (row :: map tail rows) = (x :: row) :: rows).
  simpl. by f_equal.
Qed.

Lemma transpose_rows_nil r : transpose_rows r ([] : list (list V)) = replicate r [].
Proof. induction r as [|r IH]; simpl; [done|]. by rewrite IH. Qed.

Lemma transpose_rows_involutive r c rows :
  wf_rows r c rows → transpose_rows r (transpose_rows c rows) = rows.
Proof.
  intros [Hr Hc]. revert rows r Hr Hc. induction c as [|c IH]; intros rows r Hr Hc; simpl.
  - rewrite transpose_rows_nil. subst r. clear -Hc.
    induction Hc as [|row rows Hrow _ IH]; simpl; [done|].
    rewrite IH. by destruct row.
  - destruct (transpose_rows_cons r (omap head rows) (transpose_rows c (map tail rows)))
      as [->|Hlt].
    + rewrite IH.
      * by eapply zip_heads_tails.
      * by rewrite length_map.
      * by apply Forall_tail_length.
    + rewrite (omap_head_length c) in Hlt by done. lia.
Qed.

Lemma transpose_rows_wf r c rows :
  wf_rows r c rows → wf_rows c r (transpose_rows c rows).
Proof.
  intros [Hr Hc]. split; [apply transpose_rows_length|].
  rewrite <- Hr. by apply transpose_rows_widths.
Qed.

Lemma omap_head_lookup c rows i :
  Forall (λ row, length row = S c) rows →
  omap head rows !! i = rows !! i ≫= head.
Proof.
  intros H. revert i. induction H as [|row rows Hrow _ IH]; intros i; [done|].
  destruct row as [|x row]; simpl in *; [lia|].
  change (omap head ((x :: row) :: rows)) with (x :: omap head rows).
  destruct i as [|i]; simpl; [done|]. apply IH.
Qed.

Lemma transpose_rows_entry c rows i j :
  Forall (λ row, length row = c) rows → j < c →
  transpose_rows c rows !! j ≫= (λ col, col !! i) = rows !! i ≫= (λ row, row !! j).
Proof.
  revert rows j. induction c as [|c IH]; intros rows j Hc Hj; [lia|].
  simpl. destruct j as [|j]; simpl.
  - rewrite (omap_head_lookup c) by done.
    destruct (rows !! i) as [[|x row]|]; done.
  - rewrite IH by (by apply Forall_tail_length || lia).
    rewrite list_lookup_fmap. destruct (rows !! i) as [[|x row]|]; done.
Qed.

(** C3: for a well-formed gradient array [A] of shape [(4, N)] with
    [N] other than 4, the adapter builds the table of the [N] b-values of
    row 3 and of the [N] direction vectors read off rows 0 to 2, and it
    builds the same table from the transpose of [A]; an array [B] of
    shape [(N, 4)] is treated as its transpose, of which it is the
    transpose. *)
Theorem rasb2dipy_orientation_invariant (N : nat) (A B : list (list V)) :
  N ≠ 4 → wf_rows 4 N A → wf_rows N 4 B →
  let t := gradient_table (default [] (A !! 3)) (transpose_rows N (take 3 A)) in
  _rasb2dipy (Arr2 4 N A) = ([], Ok t)
  ∧ _rasb2dipy (Arr2 N 4 (transpose_rows N A)) = ([], Ok t)
  ∧ length (bvals t) = N
  ∧ length (bvecs t) = N
  ∧ Forall (λ v, length v = 3) (bvecs t)
  ∧ (∀ j, j < N → A !! 3 ≫= (λ row, row !! j) = bvals t !! j)
  ∧ (∀ i j, i < 3 → j < N →
       bvecs t !! j ≫= (λ v, v !! i) = A !! i ≫= (λ row, row !! j))
  ∧ _rasb2dipy (Arr2 N 4 B) = _rasb2dipy (Arr2 4 N (transpose_rows 4 B))
  ∧ transpose_rows N (transpose_rows 4 B) = B.
Proof.
  intros HN HA HB t.
  assert (Hrun : ∀ rows, _rasb2dipy (Arr2 4 N rows)
      = ([], Ok (gradient_table (default [] (rows !! 3)) (transpose_rows N (take 3 rows))))).
  { intros rows. unfold _rasb2dipy, orient, table_of, row3.
    rewrite decide_False by (intros ?; done). rewrite decide_False by done.
    rewrite decide_True by lia. by destruct (rows !! 3). }
  assert (HA3 : Forall (λ row : list V, length row = N) (take 3 A))
    by (apply Forall_take, HA).
  destruct HA as [HAr HAc].
  split; [apply Hrun|]. split.
  { unfold _rasb2dipy, orient. rewrite decide_True by done.
    rewrite (transpose_rows_involutive 4 N A) by done.
    transitivity (_rasb2dipy (Arr2 4 N A)); [|apply Hrun].
    unfold _rasb2dipy, orient. rewrite decide_False by (intros ?; done).
    by rewrite decide_False by done. }
  split.
  { simpl. destruct (A !! 3) as [row|] eqn:E; simpl.
    - eapply Forall_lookup_1 in HAc; eauto.
    - apply lookup_ge_None in E. lia. }
  split; [apply transpose_rows_length|]. split.
  { simpl. eapply Forall_impl; [by apply transpose_rows_widths|].
    intros v ->. rewrite length_take. lia. }
  split.
  { intros j Hj. simpl. by destruct (A !! 3). }
  split.
  { intros i j Hi Hj. simpl. rewrite transpose_rows_entry by done.
    by rewrite lookup_take_lt by done. }
  split.
  { unfold _rasb2dipy, orient. rewrite decide_True by done.
    rewrite decide_False by (intros ?; done). by rewrite decide_False by done. }
  by apply transpose_rows_involutive.
Qed.

(** C4: the adapter raises [ValueError] exactly on the 1-d arrays
    whose size is not 4; on an array of shape [(4, 4)] it prints the
    orientation warning and builds the table of row 3 and rows 0 to 2. *)
Theorem rasb2dipy_value_error_iff :
  (∀ g : ndarray V,
     (∃ msg, (_rasb2dipy g).2 = Raise (ValueError msg)) ↔ ndim g = 1 ∧ size g ≠ 4)
  ∧ (∀ rows : list (list V),
       _rasb2dipy (Arr2 4 4 rows)
       = ([warning], Ok (gradient_table (default [] (rows !! 3))
                           (transpose_rows 4 (take 3 rows))))).
Proof.
  split.
  - intros g. split.
    + intros [msg Hg]. destruct g as [x|xs|r c rows]; simpl in *.
      * done.
      * destruct (decide (length xs ≠ 4)); [done|].
        exfalso. revert Hg. unfold orient.
        destruct (decide (length xs ≠ 4)); [done|].
        simpl. unfold table_of, row3. rewrite decide_True by lia.
        by destruct (newaxis_last xs !! 3).
      * exfalso. revert Hg. unfold orient.
        destruct (decide (r ≠ 4)); [|destruct (decide (c = 4))]; simpl;
          unfold table_of, row3; case_decide; simpl; try done;
          match goal with |- context [?l !! 3] => by destruct (l !! 3) end.
    + intros [Hd Hs]. destruct g as [x|xs|r c rows]; simpl in *; try done.
      rewrite decide_True by done. eauto.
  - intros rows. unfold _rasb2dipy, orient, table_of, row3.
    rewrite decide_False by (intros ?; done). rewrite decide_True by done.
    rewrite decide_True by lia. by destruct (rows !! 3).
Qed.
End GradientFacts.

(** * Mask round trip of the chunked models *)

Section RoundTrip.
Context {V : Type} `{!Numeric V} `{!Dipy V}.
Hypothesis contract : shape_contract.

Lemma model_fit_good model (chunk : list (list V)) n f :
  _model_fit model [length chunk; n] chunk = Ok f → good_fit f (length chunk).
Proof.
  destruct model as [m|f0]; simpl; [|done].
  intros Hfit. destruct (contract _ _ _ _ Hfit) as [Hsh Hpred]. split; [done|].
  intros g s0 st. destruct (Hpred g s0 st) as (out & ? & ? & ?). eauto.
Qed.

Lemma fit_chunks_good models (chunks : list (list (list V))) n fits :
  gather (zip_with (λ model chunk, _model_fit model [length chunk; n] chunk)
            models chunks) = Ok fits →
  length models = length chunks →
  Forall2 good_fit fits (map length chunks).
Proof.
  revert chunks fits. induction models as [|model models IH];
    intros [|chunk chunks] fits Hg Hlen; simpl in *; try done.
  - injection Hg as <-. constructor.
  - destruct (_model_fit model [length chunk; n] chunk) as [f|e] eqn:Ef; [|done].
    simpl in Hg.
    destruct (gather (zip_with _ models chunks)) as [fs|e] eqn:Eg; [|done].
    simpl in Hg. injection Hg as <-. constructor.
    + by eapply model_fit_good.
    + apply IH; [done|lia].
Qed.


Lemma concat_singletons (rows : list (list V)) :
  Forall (λ r, length r = 1) rows → length (concat rows) = length rows.
Proof.
  induction 1 as [|r rows Hr _ IH]; simpl; [done|].
  rewrite length_app, IH, Hr. done.
Qed.





Lemma ones_mask_wf (data : volume V) :
  wf_array3 (ones_mask data) ∧ ashape (ones_mask data) = spatial data.
Proof.
  unfold wf_array3, ones_mask. destruct (spatial data) as [[x y] z]. simpl.
  by rewrite length_replicate.
Qed.




End RoundTrip.

(** * Independence of the number of chunks *)

Section Chunks.
Context {V : Type} `{!Numeric V} `{!Dipy V}.
Variable voxel :
  dmodel → nat → Gradient.GradientTable V → pyval V → list V → option V → list V.
Hypothesis library_voxelwise : voxelwise voxel.

(** A fit of [chunk] as the voxel-wise library produces it. *)
Lemma fit_chunks_voxelwise (m0 : dmodel) n (chunks : list (list (list V))) :
  ∃ fits,
    gather (zip_with (λ model chunk, _model_fit model [length chunk; n] chunk)
              (replicate (length chunks) (Unfit m0)) chunks) = Ok fits
    ∧ Forall2 (λ f chunk,
        fit_shape f = [length chunk]
        ∧ ∀ g st S0,
            (∀ s, S0 = Some s → length s = length chunk) →
            fit_predict f g S0 st = Ok (whole_prediction voxel m0 n g st chunk S0))
        fits chunks.
Proof.
  induction chunks as [|chunk chunks (fits & Hg & Hall)].
  - exists []. by split.
  - destruct (library_voxelwise m0 n chunk) as (f & Hf & Hsh & Hpred).
    exists (f :: fits). split.
    + simpl. rewrite Hf. simpl. simpl in Hg. rewrite Hg. done.
    + by constructor.
Qed.

Lemma predict_chunks_voxelwise (m0 : dmodel) n g st fits
    (chunks : list (list (list V))) (S0l : list (option (list V))) :
  Forall2 (λ f chunk,
      fit_shape f = [length chunk]
      ∧ ∀ g st S0,
          (∀ s, S0 = Some s → length s = length chunk) →
          fit_predict f g S0 st = Ok (whole_prediction voxel m0 n g st chunk S0))
    fits chunks →
  Forall2 (λ chunk S0, ∀ s, S0 = Some s → length s = length chunk) chunks S0l →
  gather (map (λ t, DTI._predict_sub t.1 g t.2 st) (zip (map Fit fits) S0l))
  = Ok (zip_with (λ chunk S0,
          ([length chunk; length (Gradient.bvals g)],
           whole_prediction voxel m0 n g st chunk S0)) chunks S0l).
Proof.
  intros Hfits. revert S0l.
  induction Hfits as [|f chunk fits chunks [Hsh Hpred] _ IH]; intros S0l HS0.
  - by apply Forall2_nil_inv_l in HS0 as ->.
  - apply Forall2_cons_inv_l in HS0 as (S0 & S0l' & HS & HS0 & ->).
    simpl. rewrite (Hpred g st S0 HS). simpl. rewrite Hsh. simpl.
    specialize (IH S0l' HS0). simpl in IH. unfold fmap in IH. unfold fmap.
    rewrite IH. done.
Qed.

Lemma whole_prediction_length m0 n g st (rows : list (list V)) S0 :
  (∀ s, S0 = Some s → length s = length rows) →
  length (whole_prediction voxel m0 n g st rows S0) = length rows.
Proof.
  intros HS. destruct S0 as [s|]; simpl.
  - rewrite length_zip_with_l_eq; [done|]. symmetry. by apply HS.
  - by rewrite length_map.
Qed.

Lemma split_chunks_aligned sz (rows : list (list V)) (s : list V) :
  length s = length rows →
  Forall2 (λ chunk S0, ∀ s', S0 = Some s' → length s' = length chunk)
    (split_sizes sz rows) (map Some (split_sizes sz s)).
Proof.
  revert rows s. induction sz as [|k sz IH]; intros rows s Hlen; simpl.
  - constructor.
  - constructor.
    + intros s' [= <-]. rewrite !length_take. lia.
    + apply IH. rewrite !length_drop. lia.
Qed.

Lemma split_chunks_no_baseline sz (rows : list (list V)) :
  Forall2 (λ chunk (S0 : option (list V)), ∀ s', S0 = Some s' → length s' = length chunk)
    (split_sizes sz rows) (replicate (length sz) None).
Proof.
  revert rows. induction sz as [|k sz IH]; intros rows; simpl; constructor; [done|].
  apply IH.
Qed.

(** The predictions of the chunks, concatenated, are the prediction of
    the whole array. *)
Lemma concat_chunk_predictions m0 n g st sz (rows : list (list V)) S0 :
  sum_list sz = length rows →
  (∀ s, S0 = Some s → length s = length rows) →
  concat (zip_with (λ chunk S0c, whole_prediction voxel m0 n g st chunk S0c)
            (split_sizes sz rows)
            (match S0 with
             | Some s => map Some (split_sizes sz s)
             | None => replicate (length sz) None
             end))
  = whole_prediction voxel m0 n g st rows S0.
Proof.
  intros Hsum HS. destruct S0 as [s|]; simpl.
  - rewrite zip_with_fmap_r.
    change (zip_with (λ chunk y, whole_prediction voxel m0 n g st chunk (Some y)))
      with (zip_with (zip_with (λ r x, voxel m0 n g st r (Some x)))).
    rewrite <- split_sizes_zip_with, split_sizes_concat.
    apply take_ge. rewrite length_zip_with. lia.
  - rewrite zip_with_replicate_r_eq by (by rewrite split_sizes_length).
    change (flip (λ chunk S0c, whole_prediction voxel m0 n g st chunk S0c) None)
      with (map (λ r, voxel m0 n g st r None)).
    change (list_fmap _ _ ?f ?l) with (map f l).
    rewrite <- split_sizes_map, split_sizes_concat.
    apply take_ge. rewrite length_map. lia.
Qed.

Lemma zip_with_pair_snd {A B C D} (f : A → B → C) (h : A → B → D) l k :
  (zip_with (λ a b, (f a b, h a b)) l k).*2 = zip_with h l k.
Proof.
  revert k. induction l as [|a l IH]; intros [|b k]; simpl; try done.
  f_equal. apply IH.
Qed.

(** Fitting and predicting with [n] sub-models computes what the
    library computes on the whole masked array. *)
Lemma DTI_chunks_whole (m0 : dmodel) S0m mask1 (data : volume V) gradient st n :
  n ≠ 0 →
  (ashape (default (ones_mask data) mask1) = spatial data →
   ∀ s, S0m = Some s →
        length s = length (select (aflat (default (ones_mask data) mask1)) (vox data))) →
  (m' ← DTI.fit (DTI.mk (replicate n (Unfit m0)) S0m mask1) data;
   (DTI.predict m' gradient st).2)
  = (let mask := default (ones_mask data) mask1 in
     rows ← bool_index (spatial data) (vox data) mask;
     g ← (Gradient._rasb2dipy gradient).2;
     assign_masked mask (squeeze [length rows; length (Gradient.bvals g)])
       (concat (whole_prediction voxel m0 (nmeas data) g st rows S0m))).
Proof.
  intros Hn HS. unfold DTI.fit. simpl. rewrite length_replicate.
  set (mask := default (ones_mask data) mask1) in *.
  unfold bool_index. case_decide as Hshape; [|done]. simpl.
  specialize (HS Hshape).
  set (rows := select (aflat mask) (vox data)) in *.
  destruct (array_split_Ok rows n Hn) as (-> & Hcat & Hlen & Hsizes). simpl.
  set (sz := section_sizes (length rows) n) in *.
  assert (Hsum : sum_list sz = length rows) by (by apply section_sizes_sum).
  assert (Hszn : length sz = n) by (by apply section_sizes_length).
  destruct (fit_chunks_voxelwise m0 (nmeas data) (split_sizes sz rows))
    as (fits & Hg & Hfits).
  rewrite Hlen in Hg. rewrite Hg. simpl.
  assert (Hnf : length fits = n) by (apply Forall2_length in Hfits; lia).
  unfold DTI.predict, DTI.S0_chunks.
  cbn [DTI._model DTI._S0 DTI._mask]. rewrite length_map, Hnf.
  set (S0l := match S0m with
              | Some s => map Some (split_sizes sz s)
              | None => replicate (length sz) None
              end).
  assert (HS0 : (match S0m with
                 | Some s => chunks ← array_split s n; Ok (map Some chunks)
                 | None => Ok (replicate n None)
                 end) = Ok S0l).
  { unfold S0l. destruct S0m as [s|].
    - destruct (array_split_Ok s n Hn) as (-> & _). simpl.
      unfold sz. by rewrite (HS s).
    - by rewrite Hszn. }
  rewrite HS0.
  assert (Hal : Forall2 (λ chunk S0, ∀ s', S0 = Some s' → length s' = length chunk)
                  (split_sizes sz rows) S0l).
  { unfold S0l. destruct S0m as [s|].
    - apply split_chunks_aligned. by apply HS.
    - apply split_chunks_no_baseline. }
  destruct (zip (map Fit fits) S0l) as [|t ts] eqn:Ez.
  { exfalso. apply Forall2_length in Hal. rewrite Hlen in Hal.
    destruct fits; simpl in *; [lia|]. destruct S0l; simpl in *; [lia|done]. }
  rewrite <- Ez. clear Ez t ts.
  destruct (Gradient._rasb2dipy gradient) as [out [g|e]]; simpl; [|done].
  rewrite (predict_chunks_voxelwise m0 (nmeas data) g st fits _ S0l Hfits Hal). simpl.
  set (preds := zip_with _ (split_sizes sz rows) S0l).
  assert (Hsnd : preds.*2 = zip_with (λ chunk S0c,
              whole_prediction voxel m0 (nmeas data) g st chunk S0c)
            (split_sizes sz rows) S0l).
  { apply zip_with_pair_snd. }
  assert (Hcat2 : concat preds.*2
                  = whole_prediction voxel m0 (nmeas data) g st rows S0m).
  { rewrite Hsnd. by apply concat_chunk_predictions. }
  rewrite (concatenate_columns (length (Gradient.bvals g)) preds).
  - simpl. rewrite Hcat2, whole_prediction_length by done. done.
  - unfold preds. apply Forall2_length in Hal. rewrite Hlen in Hal.
    destruct (split_sizes sz rows); simpl in *; [lia|]. destruct S0l; simpl in *; [lia|done].
  - unfold preds. clear -Hal. induction Hal as [|c S0 cs S0l Hc _ IH]; simpl.
    + constructor.
    + constructor; [|done]. simpl. by rewrite whole_prediction_length.
Qed.

Lemma n_threads_not_forwarded : ¬ ("n_threads" ∈ allowed_kwargs).
Proof. apply (bool_decide_eq_false_1 _). reflexivity. Qed.

Lemma amap_wf {A B} (f : A → B) (a : array3 A) : wf_array3 a → wf_array3 (amap f a).
Proof. unfold wf_array3, amap. simpl. by rewrite length_map. Qed.

(** Construction with [n_threads = k] for a positive [k]: an exception
    that does not depend on [k], or [k] copies of one unfit model next to
    a mask and a baseline that do not depend on [k]. *)
Lemma DTI_init_threads cpu gtab (S0 : option (array3 V)) mask kwargs :
  (∀ s, S0 = Some s → wf_array3 s) →
  (∀ m, mask = Some m → wf_array3 m) →
  (∃ e, ∀ k, (1 ≤ k)%Z →
     DTI.__init__ cpu gtab S0 mask (<["n_threads" := PInt k]> kwargs) = Raise e)
  ∨ (∃ m0 S0m mask1,
       (∀ k, (1 ≤ k)%Z →
          DTI.__init__ cpu gtab S0 mask (<["n_threads" := PInt k]> kwargs)
          = Ok (DTI.mk (replicate (Z.to_nat k) (Unfit m0)) S0m mask1))
       ∧ (∀ m, mask1 = Some m → wf_array3 m)
       ∧ (∀ s, S0m = Some s →
            ∃ m, mask1 = Some m ∧ length s = count_true (aflat m))).
Proof.
  intros HwS Hwm.
  assert (Hthreads : ∀ k, (1 ≤ k)%Z →
    DTI.thread_count cpu (<["n_threads" := PInt k]> kwargs) = Ok (Z.to_nat k)).
  { intros k Hk. unfold DTI.thread_count. rewrite lookup_insert_eq.
    by rewrite decide_True by lia. }
  unfold DTI.__init__.
  destruct (normalize_opt S0) as [S0n|e] eqn:En.
  2:{ left. exists e. intros k Hk. by rewrite Hthreads. }
  assert (HwSn : ∀ s, S0n = Some s → wf_array3 s).
  { intros s ->. destruct S0 as [s0|]; simpl in En; [|done].
    unfold normalize_S0 in En. destruct (aflat s0) eqn:E0; [done|].
    simpl in En. injection En as <-. apply amap_wf. by apply HwS. }
  set (mask1 := match mask_gt0 <$> mask, S0n with
                | None, Some s => Some (threshold_mask s)
                | _, _ => mask_gt0 <$> mask
                end).
  assert (Hw1 : ∀ m, mask1 = Some m → wf_array3 m).
  { intros m. unfold mask1. destruct mask as [m0|]; simpl.
    - intros [= <-]. apply amap_wf. by apply Hwm.
    - destruct S0n as [s|]; [|done]. intros [= <-]. apply amap_wf. by apply HwSn. }
  destruct S0n as [s|]; [destruct mask1 as [m|] eqn:Em|].
  - unfold bool_index. destruct (decide (ashape m = ashape s)) as [Hsh|Hsh].
    + right. eexists _, _, _. split; [|split].
      * intros k Hk. rewrite Hthreads by done. simpl. fold mask1. rewrite Em.
        rewrite decide_True by done. simpl. by rewrite delete_insert_eq.
      * done.
      * intros s' [= <-]. exists m. split; [done|]. apply select_length.
        specialize (Hw1 m eq_refl). specialize (HwSn s eq_refl).
        unfold wf_array3 in *. by rewrite Hw1, HwSn, Hsh.
    + left. eexists. intros k Hk. rewrite Hthreads by done. simpl. fold mask1.
      rewrite Em. by rewrite decide_False by done.
  - right. eexists _, _, _. split; [|split].
    + intros k Hk. rewrite Hthreads by done. simpl. fold mask1. rewrite Em.
      simpl. by rewrite delete_insert_eq.
    + done.
    + done.
  - right. eexists _, _, _. split; [|split].
    + intros k Hk. rewrite Hthreads by done. simpl. fold mask1.
      by rewrite delete_insert_eq.
    + done.
    + done.
Qed.

(** C2: with a voxel-wise library, fitting and predicting with
    [n_threads = k], for any [k >= 1], returns what fitting and
    predicting with a single chunk returns, array or exception; the
    kurtosis wrapper does not look at [n_threads] at all. *)
Theorem chunked_fit_predict_deterministic :
  (∀ cpu gtab (S0 : option (array3 V)) mask kwargs (data : volume V)
     gradient step (k : Z),
     (1 ≤ k)%Z →
     wf_volume data →
     (∀ s, S0 = Some s → wf_array3 s) →
     (∀ m, mask = Some m → wf_array3 m) →
     DTI_fit_predict cpu gtab S0 mask (<["n_threads" := PInt k]> kwargs)
       data gradient step
     = DTI_fit_predict cpu gtab S0 mask (<["n_threads" := PInt 1]> kwargs)
         data gradient step)
  ∧ (∀ gtab (S0 : option (array3 V)) mask kwargs (data : volume V) gradient (k : Z),
       DKI_fit_predict gtab S0 mask (<["n_threads" := PInt k]> kwargs) data gradient
       = DKI_fit_predict gtab S0 mask (<["n_threads" := PInt 1]> kwargs) data gradient).
Proof.
  split.
  - intros cpu gtab S0 mask kwargs data gradient step k Hk Hdata HwS Hwm.
    unfold DTI_fit_predict.
    destruct (DTI_init_threads cpu gtab S0 mask kwargs HwS Hwm)
      as [[e He]|(m0 & S0m & mask1 & Hinit & Hw1 & HS0)].
    { rewrite (He k Hk), (He 1%Z) by lia. done. }
    rewrite (Hinit k Hk), (Hinit 1%Z) by lia.
    assert (Hcond : ashape (default (ones_mask data) mask1) = spatial data →
      ∀ s, S0m = Some s →
        length s = length (select (aflat (default (ones_mask data) mask1)) (vox data))).
    { intros Hshape s Hs. destruct (HS0 s Hs) as (m & -> & ->). simpl in *.
      symmetry. apply select_length. specialize (Hw1 m eq_refl).
      unfold wf_array3, wf_volume in *. by rewrite Hw1, Hdata, Hshape. }
    change (Ok ?a ≫= ?f) with (f a). cbv beta.
    rewrite (DTI_chunks_whole m0 S0m mask1 data gradient step (Z.to_nat k)) by (done || lia).
    rewrite (DTI_chunks_whole m0 S0m mask1 data gradient step (Z.to_nat 1)) by (done || lia).
    done.
  - intros gtab S0 mask kwargs data gradient k.
    unfold DKI_fit_predict, DKI.__init__, filter_kwargs.
    rewrite !map_filter_insert_not by (intros y; by apply n_threads_not_forwarded).
    done.
Qed.
End Chunks.

(** * The trivial models *)

Section Trivial.
Context {V : Type} `{!Numeric V}.

Lemma B0_run_constant (m : B0.TrivialB0Model V) (calls : list (B0.call V)) :
  (B0.run m calls).1 = m ∧ Forall (λ o, o = B0._S0 m) (B0.run m calls).2.
Proof.
  induction calls as [|[data|gradient] calls [IH1 IH2]]; simpl.
  - by split.
  - by split.
  - destruct (B0.run m calls) as [m' outs]. simpl in *. split; [done|].
    by constructor.
Qed.

(** C6: a baseline model constructed with the map [S0] returns exactly
    [S0] from every [predict], for every gradient and across any sequence
    of [fit] and [predict] calls; [fit] leaves the instance as it was. *)
Theorem b0_predict_identity (gtab : Gradient.ndarray V) (S0 : pyval V) :
  S0 ≠ PNone →
  ∃ m, B0.__init__ gtab S0 = Ok m
       ∧ (∀ gradient, B0.predict m gradient = S0)
       ∧ (∀ data, B0.fit m data = m)
       ∧ (∀ calls, (B0.run m calls).1 = m
                   ∧ Forall (λ o, o = S0) (B0.run m calls).2).
Proof.
  intros HS0. exists (B0.mk S0). split; [by destruct S0|].
  split; [done|]. split; [done|]. intros calls. apply (B0_run_constant (B0.mk S0)).
Qed.

(** C8: after [fit(data)] an average model returns from [predict] the
    mean of [data] over its last axis, whatever the gradient and whatever
    the instance held before. *)
Theorem average_fit_predict_mean (self : Average.AverageDWModel V)
    (data : volume V) (gradient : Gradient.ndarray V) :
  Average.predict (Average.fit self data) gradient = Ok (Average.mean_last data)
  ∧ ashape (Average.mean_last data) = spatial data
  ∧ aflat (Average.mean_last data) = map np_mean (vox data)
  ∧ ∀ gradient', Average.predict (Average.fit self data) gradient'
                 = Average.predict (Average.fit self data) gradient.
Proof. done. Qed.

(** C10: an average model on which [fit] was never called fails on
    every [predict]: the slot it would return is unset. *)
Theorem average_predict_unfit_fails (gtab gradient : Gradient.ndarray V) :
  Average._data (Average.__init__ gtab) = None
  ∧ Average.predict (Average.__init__ gtab) gradient = Raise (AttributeError "_data").
Proof. done. Qed.
End Trivial.

(** * The model factory *)

Section FactoryFacts.
Context {V : Type} `{!Numeric V} `{!Dipy V}.
Variable cpu_count : nat.
Import ModelFactory.




Lemma prefix_not_baseline name p :
  startswith (lower name) p = true →
  startswith "s0" p = false → startswith "b0" p = false →
  ¬ lower name ∈ ["s0"; "b0"].
Proof.
  intros Hp Hs Hb Hin. apply elem_of_cons in Hin as [Heq|Hin].
  - rewrite Heq in Hp. congruence.
  - apply elem_of_cons in Hin as [Heq|Hin]; [|by apply elem_of_nil in Hin].
    rewrite Heq in Hp. congruence.
Qed.


(** C7, as the code has it: the constructor rejects a missing baseline
    map with its [ValueError]; through the factory, under the names
    "S0" and "B0" in any case, an [S0] option passed as [None] reaches
    that check, while an absent [S0] option fails earlier, in the
    factory's own lookup, with a [KeyError]. *)
Theorem baseline_model_requires_S0 :
  (∀ gtab : Gradient.ndarray V,
     B0.__init__ gtab PNone = Raise (ValueError "S0 must be provided"))
  ∧ (∀ (gtab : Gradient.ndarray V) name (kwargs : gmap string (pyval V)),
       lower name ∈ ["s0"; "b0"] →
       (kwargs !! "S0" = None →
        init cpu_count gtab name kwargs = ([], Raise (KeyError "S0")))
       ∧ (kwargs !! "S0" = Some PNone →
          init cpu_count gtab name kwargs
          = ([], Raise (ValueError "S0 must be provided")))).
Proof.
  split; [done|]. intros gtab name kwargs Hname. unfold init, pop_S0.
  rewrite decide_True by done. split; intros ->; done.
Qed.

End FactoryFacts.

(** * Resolution of the voxel mask *)

Section MaskResolution.
Context {V : Type} `{!Numeric V} `{!Dipy V}.
Variable cpu_count : nat.

Lemma mask_gt0_id (mask : array3 bool) : mask_gt0 mask = mask.
Proof.
  destruct mask as [sh flat]. unfold mask_gt0, amap. simpl. f_equal.
  induction flat as [|b flat IH]; simpl; [done|]. rewrite IH. by destruct b.
Qed.



End MaskResolution.

(** * Further properties of the adapter *)

Section AdapterMore.
Context {V : Type}.
Import Gradient.

(** X1: a single gradient given as the 1-d array [(x, y, z, b)] becomes
    the table of the one b-value [b] and the one direction [(x, y, z)],
    and nothing is printed. *)
Theorem rasb2dipy_single_gradient (x y z b : V) :
  _rasb2dipy (Arr1 [x; y; z; b]) = ([], Ok (gradient_table [b] [[x; y; z]])).
Proof. reflexivity. Qed.

Lemma table_of_outcome r c (rows : list (list V)) :
  (3 < r → ∃ t, table_of r c rows = Ok t)
  ∧ (r ≤ 3 → ∃ msg, table_of r c rows = Raise (IndexError msg)).
Proof.
  unfold table_of, row3. split; intros Hr.
  - rewrite decide_True by done. destruct (rows !! 3); simpl; eauto.
  - rewrite decide_False by lia. simpl. eauto.
Qed.

(** X2: the adapter does not ask for an axis of length 4.  A 2-d array
    of shape [(r, c)] is converted exactly when [r = 4] or [c > 3] (it is
    transposed when [r] is not 4, and only row 3 has to exist
    afterwards); it fails with [IndexError] exactly when [r] is not 4
    and [c <= 3]. *)
Theorem rasb2dipy_2d_outcome (r c : nat) (rows : list (list V)) :
  ((∃ t, (_rasb2dipy (Arr2 r c rows)).2 = Ok t) ↔ r = 4 ∨ 3 < c)
  ∧ ((∃ msg, (_rasb2dipy (Arr2 r c rows)).2 = Raise (IndexError msg))
     ↔ r ≠ 4 ∧ c ≤ 3).
Proof.
  unfold _rasb2dipy, orient.
  destruct (decide (r ≠ 4)) as [Hr|Hr].
  - simpl. destruct (table_of_outcome c r (transpose_rows c rows)) as [Hok Herr].
    destruct (decide (3 < c)) as [Hc|Hc].
    + destruct (Hok Hc) as [t Ht]. rewrite Ht. split; split.
      * intros _. by right.
      * intros _. eauto.
      * intros [msg Hmsg]. done.
      * intros [_ ?]. lia.
    + destruct (Herr ltac:(lia)) as [msg Hmsg]. rewrite Hmsg. split; split.
      * intros [t Ht]. done.
      * intros [?|?]; [done|lia].
      * intros _. split; [done|lia].
      * intros _. eauto.
  - assert (r = 4) as -> by (destruct (decide (r = 4)); [done|by destruct Hr]).
    destruct (table_of_outcome 4 c rows) as [Hok _].
    destruct (Hok ltac:(lia)) as [t Ht].
    destruct (decide (c = 4)); simpl; rewrite Ht; split; split;
      try (intros _; eauto; by left); try (intros [msg Hmsg]; done);
      intros [? _]; done.
Qed.

(** X3: the orientation warning is printed for the arrays of shape
    [(4, 4)] and for no other input, whether or not the conversion
    succeeds. *)
Theorem rasb2dipy_warns_only_on_4x4 (g : ndarray V) :
  (_rasb2dipy g).1 = if decide (shape g = [4; 4]) then [warning] else [].
Proof.
  destruct (decide (shape g = [4; 4])) as [Hs|Hs].
  - destruct g as [x|xs|r c rows]; simpl in Hs; try done.
    injection Hs as -> ->. reflexivity.
  - destruct g as [x|xs|r c rows]; simpl in *.
    + done.
    + destruct (decide (length xs ≠ 4)) as [|Hn]; [done|].
      unfold orient. rewrite decide_False by done.
      by rewrite decide_False by lia.
    + unfold orient. destruct (decide (r ≠ 4)) as [Hr|Hr]; [done|].
      destruct (decide (c = 4)) as [->|Hc]; [|done].
      exfalso. apply Hs. f_equal. destruct (decide (r = 4)); [done|by destruct Hr].
Qed.
End AdapterMore.

(** * Further properties of the construction of the wrappers *)

Section ConstructionMore.
Context {V : Type} `{!Numeric V} `{!Dipy V}.
Variable cpu_count : nat.

Lemma forwarded_lookup (kwargs : gmap string (pyval V)) k v :
  filter_kwargs (delete "n_threads" kwargs) !! k = Some v
  ↔ k ∈ allowed_kwargs ∧ kwargs !! k = Some v.
Proof.
  unfold filter_kwargs. rewrite map_lookup_filter_Some, lookup_delete_Some. simpl.
  split.
  - intros [[_ ?] ?]. done.
  - intros [Hk ?]. split; [|done]. split; [|done].
    intros <-. by apply n_threads_not_forwarded in Hk.
Qed.

Lemma DTI_init_inv gtab (S0 : option (array3 V)) mask kwargs m :
  DTI.__init__ cpu_count gtab S0 mask kwargs = Ok m →
  ∃ n S0n,
    DTI.thread_count cpu_count kwargs = Ok n
    ∧ normalize_opt S0 = Ok S0n
    ∧ DTI._model m
      = replicate n (Unfit (TensorModel gtab (filter_kwargs (delete "n_threads" kwargs))))
    ∧ DTI._mask m = match mask, S0n with
                    | None, Some s => Some (threshold_mask s)
                    | _, _ => mask
                    end
    ∧ match S0n, DTI._mask m with
      | Some s, Some msk =>
          ashape msk = ashape s ∧ DTI._S0 m = Some (select (aflat msk) (aflat s))
      | _, _ => DTI._S0 m = None
      end.
Proof.
  unfold DTI.__init__.
  destruct (DTI.thread_count _ _) as [n|e]; [|done].
  destruct (normalize_opt S0) as [S0n|e]; [|done].
  cbn [mbind result_bind].
  assert (Hm : mask_gt0 <$> mask = mask).
  { destruct mask as [msk|]; simpl; [|done]. by rewrite mask_gt0_id. }
  rewrite Hm.
  destruct mask as [msk|], S0n as [s|]; cbn [mbind result_bind].
  - unfold bool_index. destruct (decide (ashape msk = ashape s)) as [Hsh|Hsh]; [|done].
    cbn. intros [= <-]. by exists n, (Some s).
  - cbn. intros [= <-]. by exists n, None.
  - unfold bool_index.
    destruct (decide (ashape (threshold_mask s) = ashape s)) as [Hsh|Hsh]; [|done].
    cbn. intros [= <-]. by exists n, (Some s).
  - cbn. intros [= <-]. by exists n, None.
Qed.


(** X5: the wrappers hand to the library the options of the allow-list
    and nothing else, with their values unchanged; an option outside the
    list (and, for the tensor wrapper, other than [n_threads]) has no
    effect on what is constructed. *)
Theorem wrappers_forward_allowed_options_only gtab (S0 : option (array3 V)) mask
    (kwargs : gmap string (pyval V)) :
  (∀ m, DTI.__init__ cpu_count gtab S0 mask kwargs = Ok m →
     ∃ kw, (∀ k v, kw !! k = Some v ↔ k ∈ allowed_kwargs ∧ kwargs !! k = Some v)
           ∧ Forall (λ sub, sub = Unfit (TensorModel gtab kw)) (DTI._model m))
  ∧ (∀ m, DKI.__init__ gtab S0 mask kwargs = Ok m →
       ∃ kw, (∀ k v, kw !! k = Some v ↔ k ∈ allowed_kwargs ∧ kwargs !! k = Some v)
             ∧ DKI._model m = Unfit (DiffusionKurtosisModel gtab kw))
  ∧ (∀ k v, ¬ k ∈ allowed_kwargs →
       (k ≠ "n_threads" →
        DTI.__init__ cpu_count gtab S0 mask (<[k := v]> kwargs)
        = DTI.__init__ cpu_count gtab S0 mask kwargs)
       ∧ DKI.__init__ gtab S0 mask (<[k := v]> kwargs)
         = DKI.__init__ gtab S0 mask kwargs).
Proof.
  split; [|split].
  - intros m Hinit.
    destruct (DTI_init_inv _ _ _ _ _ Hinit) as (n & S0n & _ & _ & Hmod & _).
    exists (filter_kwargs (delete "n_threads" kwargs)). split.
    + apply forwarded_lookup.
    + rewrite Hmod. by apply Forall_replicate.
  - intros m. unfold DKI.__init__.
    destruct (normalize_opt S0) as [S0n|e]; [|done]. cbn [mbind result_bind].
    match goal with |- (?r ≫= _) = _ → _ => destruct r as [S0m|e]; [|done] end.
    cbn. intros [= <-]. exists (filter_kwargs kwargs). split; [|done].
    intros k v. unfold filter_kwargs. rewrite map_lookup_filter_Some. simpl. tauto.
  - intros k v Hk. split.
    + intros Hnt. unfold DTI.__init__, DTI.thread_count.
      rewrite lookup_insert_ne by done.
      rewrite delete_insert_ne by done. unfold filter_kwargs.
      by rewrite map_filter_insert_not by (intros y; done).
    + unfold DKI.__init__, filter_kwargs.
      by rewrite map_filter_insert_not by (intros y; done).
Qed.

Lemma normalize_S0_shape (S0 s : array3 V) :
  normalize_S0 S0 = Ok s → ashape s = ashape S0 ∧ length (aflat s) = length (aflat S0).
Proof.
  unfold normalize_S0. destruct (aflat S0) eqn:E; [done|]. intros [= <-].
  simpl. by rewrite length_map, E.
Qed.

Lemma DKI_init_inv gtab (S0 : option (array3 V)) mask kwargs m :
  DKI.__init__ gtab S0 mask kwargs = Ok m →
  ∃ S0n,
    normalize_opt S0 = Ok S0n
    ∧ DKI._mask m = match mask, S0n with
                    | None, Some s => Some (threshold_mask s)
                    | _, _ => mask
                    end
    ∧ match DKI._mask m, S0n with
      | Some msk, Some s =>
          ashape msk = ashape s ∧ DKI._S0 m = Some (select (aflat msk) (aflat s))
      | Some _, None => False
      | None, _ => DKI._S0 m = None
      end.
Proof.
  unfold DKI.__init__.
  destruct (normalize_opt S0) as [S0n|e]; [|done]. cbn [mbind result_bind].
  assert (Hb : ∀ msk : array3 bool, astype_bool msk = msk).
  { intros [sh flat]. unfold astype_bool, amap. simpl. f_equal.
    induction flat as [|b flat IH]; simpl; [done|]. rewrite IH. by destruct b. }
  destruct mask as [msk|], S0n as [s|]; cbn [mbind result_bind].
  - rewrite Hb. unfold bool_index.
    destruct (decide (ashape msk = ashape s)) as [Hsh|Hsh]; [|done].
    cbn. intros [= <-]. by exists (Some s).
  - done.
  - rewrite Hb. unfold bool_index.
    destruct (decide (ashape (threshold_mask s) = ashape s)) as [Hsh|Hsh]; [|done].
    cbn. intros [= <-]. by exists (Some s).
  - cbn. intros [= <-]. by exists None.
Qed.

(** X6: a wrapper constructed with a baseline map keeps one baseline
    value per voxel of its mask, in the order of the voxels, and its mask
    has the shape of the map; constructed without one it keeps none. *)
Theorem baseline_aligned_with_mask gtab (S0 : option (array3 V)) mask kwargs :
  (∀ s, S0 = Some s → wf_array3 s) →
  (∀ msk, mask = Some msk → wf_array3 msk) →
  (∀ m, DTI.__init__ cpu_count gtab S0 mask kwargs = Ok m →
     match S0 with
     | Some S0' =>
         ∃ msk s, DTI._mask m = Some msk ∧ DTI._S0 m = Some s
                  ∧ ashape msk = ashape S0'
                  ∧ length s = count_true (aflat msk)
     | None => DTI._S0 m = None
     end)
  ∧ (∀ m, DKI.__init__ gtab S0 mask kwargs = Ok m →
       match S0 with
       | Some S0' =>
           ∃ msk s, DKI._mask m = Some msk ∧ DKI._S0 m = Some s
                    ∧ ashape msk = ashape S0'
                    ∧ length s = count_true (aflat msk)
       | None => DKI._S0 m = None
       end).
Proof.
  intros HwS Hwm.
  assert (Halign : ∀ (S0' s : array3 V) (msk : array3 bool),
    S0 = Some S0' → normalize_S0 S0' = Ok s →
    match mask with Some _ => mask | None => Some (threshold_mask s) end = Some msk →
    ashape msk = ashape s →
    ashape msk = ashape S0'
    ∧ length (select (aflat msk) (aflat s)) = count_true (aflat msk)).
  { intros S0' s msk HS0 Hn Hmsk Hsh.
    destruct (normalize_S0_shape _ _ Hn) as [Hs1 Hs2].
    split; [congruence|]. apply select_length.
    specialize (HwS S0' HS0). unfold wf_array3 in HwS.
    destruct mask as [msk'|].
    - injection Hmsk as ->. specialize (Hwm msk eq_refl). unfold wf_array3 in Hwm.
      rewrite Hwm, Hs2, HwS. congruence.
    - injection Hmsk as <-. simpl. by rewrite length_map. }
  split.
  - intros m Hinit.
    destruct (DTI_init_inv _ _ _ _ _ Hinit) as (n & S0n & _ & Hn & _ & Hmask & HS0).
    destruct S0 as [S0'|]; simpl in Hn.
    + destruct (normalize_S0 S0') as [s|e] eqn:En; [|done]. injection Hn as <-.
      assert (Hmsk : ∃ msk, DTI._mask m = Some msk).
      { rewrite Hmask. destruct mask; eauto. }
      destruct Hmsk as [msk Hmsk]. rewrite Hmsk in HS0. destruct HS0 as [Hsh HS0].
      exists msk, (select (aflat msk) (aflat s)). split; [done|]. split; [done|].
      eapply Halign; [done|done| |done]. rewrite <- Hmsk, Hmask. by destruct mask.
    + injection Hn as <-. by destruct (DTI._mask m).
  - intros m Hinit.
    destruct (DKI_init_inv _ _ _ _ _ Hinit) as (S0n & Hn & Hmask & HS0).
    destruct S0 as [S0'|]; simpl in Hn.
    + destruct (normalize_S0 S0') as [s|e] eqn:En; [|done]. injection Hn as <-.
      assert (Hmsk : ∃ msk, DKI._mask m = Some msk).
      { rewrite Hmask. destruct mask; eauto. }
      destruct Hmsk as [msk Hmsk]. rewrite Hmsk in HS0. destruct HS0 as [Hsh HS0].
      exists msk, (select (aflat msk) (aflat s)). split; [done|]. split; [done|].
      eapply Halign; [done|done| |done]. rewrite <- Hmsk, Hmask. by destruct mask.
    + injection Hn as <-. by destruct (DKI._mask m).
Qed.

(** X7: a kurtosis wrapper cannot be constructed with a mask and
    without a baseline map: the mask is used to subset a map that is not
    there, whatever the mask and the options.  The tensor wrapper accepts
    the same arguments. *)
Theorem DKI_mask_needs_baseline gtab (mask : array3 bool)
    (kwargs : gmap string (pyval V)) :
  DKI.__init__ gtab None (Some mask) kwargs
  = Raise (TypeError "'NoneType' object is not subscriptable")
  ∧ (∀ n, DTI.thread_count cpu_count kwargs = Ok n →
       ∃ m, DTI.__init__ cpu_count gtab None (Some mask) kwargs = Ok m
            ∧ DTI._mask m = Some mask ∧ DTI._S0 m = None).
Proof.
  split; [done|]. intros n Hn. unfold DTI.__init__. rewrite Hn. cbn.
  rewrite mask_gt0_id. eauto.
Qed.

(** X8: when the explicit mask and the baseline map differ in shape,
    construction of either wrapper fails with [IndexError]; an empty
    baseline map fails with [ValueError] before the mask is looked at. *)
Theorem construction_shape_errors gtab (S0 : array3 V) (mask : array3 bool)
    (kwargs : gmap string (pyval V)) :
  (aflat S0 ≠ [] → ashape mask ≠ ashape S0 →
   (∀ n, DTI.thread_count cpu_count kwargs = Ok n →
      DTI.__init__ cpu_count gtab (Some S0) (Some mask) kwargs
      = Raise (IndexError "boolean index did not match indexed array"))
   ∧ DKI.__init__ gtab (Some S0) (Some mask) kwargs
     = Raise (IndexError "boolean index did not match indexed array"))
  ∧ (aflat S0 = [] →
     (∀ n, DTI.thread_count cpu_count kwargs = Ok n →
        ∃ msg, DTI.__init__ cpu_count gtab (Some S0) (Some mask) kwargs
               = Raise (ValueError msg))
     ∧ ∃ msg, DKI.__init__ gtab (Some S0) (Some mask) kwargs = Raise (ValueError msg)).
Proof.
  split.
  - intros Hne Hsh.
    assert (Hn : ∃ s, normalize_S0 S0 = Ok s ∧ ashape s = ashape S0).
    { unfold normalize_S0. destruct (aflat S0); [done|]. eauto. }
    destruct Hn as (s & Hn & Hs). split.
    + intros n Hth. unfold DTI.__init__. rewrite Hth. simpl. rewrite Hn. cbn.
      unfold bool_index. simpl. by rewrite decide_False by congruence.
    + unfold DKI.__init__. simpl. rewrite Hn. cbn.
      unfold bool_index. simpl. by rewrite decide_False by congruence.
  - intros Hempty. split.
    + intros n Hth. unfold DTI.__init__. rewrite Hth. simpl.
      unfold normalize_S0. rewrite Hempty. cbn. eauto.
    + unfold DKI.__init__. simpl. unfold normalize_S0. rewrite Hempty. cbn. eauto.
Qed.
End ConstructionMore.

(** * Further properties of [fit] *)

Section FitMore.
Context {V : Type} `{!Numeric V} `{!Dipy V}.

Lemma gather_length {A} (tasks : list (result A)) rs :
  gather tasks = Ok rs → length rs = length tasks.
Proof. intros Hg. apply gather_inv in Hg as ->. by rewrite length_map. Qed.


Lemma DTI_fit_inv (self self' : DTI.DTIModel) (data : volume V) :
  DTI.fit self data = Ok self' →
  length (DTI._model self') = length (DTI._model self)
  ∧ length (DTI._model self) ≠ 0
  ∧ Forall (λ sub, ∃ f, sub = Fit f) (DTI._model self')
  ∧ DTI._S0 self' = DTI._S0 self
  ∧ DTI._mask self' = Some (default (ones_mask data) (DTI._mask self))
  ∧ ashape (default (ones_mask data) (DTI._mask self)) = spatial data.
Proof.
  unfold DTI.fit. unfold bool_index.
  destruct (decide (ashape (default (ones_mask data) (DTI._mask self)) = spatial data))
    as [Hsh|Hsh]; [|done].
  cbn [mbind result_bind].
  destruct (decide (length (DTI._model self) = 0)) as [Hz|Hnz].
  { unfold array_split. by rewrite decide_True by done. }
  set (rows := select _ (vox data)).
  destruct (array_split_Ok rows _ Hnz) as (-> & _ & Hlen & _).
  cbn [mbind result_bind].
  destruct (gather _) as [fits|e] eqn:Eg; [|done]. cbn. intros [= <-]. simpl.
  apply gather_length in Eg. rewrite length_zip_with, Hlen in Eg.
  repeat split; try done.
  - rewrite length_map. lia.
  - apply Forall_fmap, Forall_forall. intros f _. by exists f.
Qed.

(** X9: a successful [fit] of the tensor wrapper keeps the number of
    sub-models (which is not zero) and the baseline values, replaces
    every sub-model by a fit, and leaves a mask of the spatial shape of
    the data: the mask the wrapper had, or the all-true mask. *)
Theorem DTI_fit_invariants (self self' : DTI.DTIModel) (data : volume V) :
  DTI.fit self data = Ok self' →
  length (DTI._model self') = length (DTI._model self)
  ∧ length (DTI._model self) ≠ 0
  ∧ Forall (λ sub, ∃ f, sub = Fit f) (DTI._model self')
  ∧ DTI._S0 self' = DTI._S0 self
  ∧ DTI._mask self' = Some (default (ones_mask data) (DTI._mask self))
  ∧ ashape (default (ones_mask data) (DTI._mask self)) = spatial data.
Proof. apply DTI_fit_inv. Qed.

End FitMore.

(** * Further properties of [fit] and [predict] under the shape contract *)

Section PredictMore.
Context {V : Type} `{!Numeric V} `{!Dipy V}.
Hypothesis contract : shape_contract.

Lemma good_fit_shapes (fits : list dfit) ks :
  Forall2 good_fit fits ks → map fit_shape fits = map (λ k, [k]) ks.
Proof.
  induction 1 as [|f k fits ks [Hsh _] _ IH]; simpl; [done|]. by rewrite Hsh, IH.
Qed.

Lemma section_sizes_bounds total n :
  Forall (λ k, k = total / n ∨ k = S (total / n)) (section_sizes total n).
Proof.
  unfold section_sizes. apply Forall_app. split; apply Forall_replicate; auto.
Qed.

(** X11: the chunks of [fit] are as equal as possible.  With [n]
    sub-models and [M] voxels in the mask, the fits cover, in order,
    [M mod n] chunks of [M / n + 1] voxels and then chunks of [M / n]
    voxels ([n] chunks in all, empty ones included when [n > M]), and
    the chunk sizes add up to [M]. *)
Theorem DTI_fit_chunk_sizes (self self' : DTI.DTIModel) (data : volume V) :
  wf_volume data →
  (∀ m, DTI._mask self = Some m → wf_array3 m) →
  DTI.fit self data = Ok self' →
  let n := length (DTI._model self) in
  let M := count_true (aflat (default (ones_mask data) (DTI._mask self))) in
  ∃ fits,
    DTI._model self' = map Fit fits
    ∧ map fit_shape fits
      = map (λ k, [k]) (replicate (M mod n) (S (M / n)) ++ replicate (n - M mod n) (M / n))
    ∧ length fits = n
    ∧ sum_list (section_sizes M n) = M
    ∧ Forall (λ k, k = M / n ∨ k = S (M / n)) (section_sizes M n).
Proof.
  intros Hdata Hmask Hfit n M.
  destruct (DTI_fit_inv self self' data Hfit) as (Hlen & Hnz & _ & _ & _ & Hsh).
  revert Hfit. unfold DTI.fit, bool_index. rewrite decide_True by done.
  cbn [mbind result_bind].
  set (mask := default (ones_mask data) (DTI._mask self)) in *.
  set (rows := select (aflat mask) (vox data)).
  assert (Hrows : length rows = M).
  { apply select_length.
    assert (Hwf : wf_array3 mask).
    { unfold mask. destruct (DTI._mask self) as [m|]; simpl; [by apply Hmask|].
      apply ones_mask_wf. }
    unfold wf_array3 in Hwf. unfold wf_volume in Hdata. by rewrite Hwf, Hdata, Hsh. }
  destruct (array_split_Ok rows _ Hnz) as (-> & _ & Hn & Hsizes).
  cbn [mbind result_bind].
  destruct (gather _) as [fits|e] eqn:Eg; [|done]. cbn. intros [= <-].
  apply (fit_chunks_good contract) in Eg; [|by rewrite Hn].
  rewrite Hsizes, Hrows in Eg. exists fits. split; [done|]. split.
  - by apply good_fit_shapes.
  - split.
    + apply Forall2_length in Eg. rewrite Eg. by apply section_sizes_length.
    + split; [by apply section_sizes_sum|apply section_sizes_bounds].
Qed.




Lemma rasb2dipy_4x4_printed (rows : list (list V)) :
  (Gradient._rasb2dipy (Gradient.Arr2 4 4 rows)).1 = [Gradient.warning].
Proof. reflexivity. Qed.

Lemma mjoin_replicate_singleton {A} n (a : A) : mjoin (replicate n [a]) = replicate n a.
Proof. induction n as [|n IH]; simpl; [done|]. by rewrite IH. Qed.

(** X13: for a gradient array of shape [(4, 4)] the tensor wrapper
    prints the orientation warning once per sub-model (the array is
    converted anew for every chunk), the kurtosis wrapper once. *)
Theorem predict_warning_count (rows : list (list V)) :
  (∀ (self : DTI.DTIModel) step,
     DTI._model self ≠ [] →
     (DTI.predict self (Gradient.Arr2 4 4 rows) step).1
     = replicate (length (DTI._model self)) Gradient.warning)
  ∧ (∀ self : DKI.DKIModel,
       (DKI.predict self (Gradient.Arr2 4 4 rows)).1 = [Gradient.warning]).
Proof.
  split.
  - intros self step Hne.
    assert (Hnz : length (DTI._model self) ≠ 0) by (by destruct (DTI._model self)).
    assert (HS0 : ∃ S0l, DTI.S0_chunks self = Ok S0l
                         ∧ length S0l = length (DTI._model self)).
    { unfold DTI.S0_chunks. destruct (DTI._S0 self) as [s|].
      - destruct (array_split_Ok s _ Hnz) as (-> & _ & Hlen & _). simpl.
        eexists. split; [done|]. by rewrite length_map.
      - eexists. split; [done|]. by rewrite length_replicate. }
    destruct HS0 as (S0l & HS0 & Hlen).
    unfold DTI.predict. rewrite HS0.
    assert (Hz : length (zip (DTI._model self) S0l) = length (DTI._model self)).
    { rewrite length_zip_with. lia. }
    destruct (zip (DTI._model self) S0l) as [|t ts] eqn:Ez.
    { simpl in Hz. lia. }
    pose proof (rasb2dipy_4x4_printed rows) as Hw.
    destruct (Gradient._rasb2dipy (Gradient.Arr2 4 4 rows)) as [out converted].
    simpl in Hw. subst out. cbn [fst]. rewrite Hz. apply mjoin_replicate_singleton.
  - intros self. unfold DKI.predict.
    pose proof (rasb2dipy_4x4_printed rows) as Hw.
    destruct (Gradient._rasb2dipy (Gradient.Arr2 4 4 rows)) as [out converted].
    by simpl in *.
Qed.

Lemma squeeze_volume (X Y Z : nat) :
  squeeze ([1; X; Y; Z] ++ [1]) = squeeze [X; Y; Z].
Proof.
  unfold squeeze. simpl. rewrite filter_cons_False by (intros ?; done).
  rewrite !filter_cons. repeat case_decide; simpl; try done;
    rewrite ?filter_cons_False by (intros ?; done); done.
Qed.

(** X14: the kurtosis wrapper without a mask fits the whole volume
    under an added leading axis.  Its [predict], for one gradient,
    returns the library's prediction as it is (not stored into a float32
    array) with the spatial shape of the volume when no spatial axis has
    length one; when some but not all spatial axes have length one the
    squeezed prediction is no longer 3-d and [predict] fails with
    [ValueError]. *)
Theorem DKI_unmasked_predict (self0 self : DKI.DKIModel) (data : volume V)
    gradient out gtab (X Y Z : nat) :
  wf_volume data →
  spatial data = (X, Y, Z) →
  DKI._mask self0 = None →
  DKI.fit self0 data = Ok self →
  Gradient._rasb2dipy gradient = (out, Ok gtab) →
  length (Gradient.bvals gtab) = 1 →
  DKI._mask self = None
  ∧ length (DKI.prediction self gtab) = X * Y * Z
  ∧ (X ≠ 1 ∧ Y ≠ 1 ∧ Z ≠ 1 →
     (DKI.predict self gradient).2 = Ok (mk_ndarr [X; Y; Z] (DKI.prediction self gtab)))
  ∧ (¬ (X ≠ 1 ∧ Y ≠ 1 ∧ Z ≠ 1) → ¬ (X = 1 ∧ Y = 1 ∧ Z = 1) →
     ∃ msg, (DKI.predict self gradient).2 = Raise (ValueError msg)).
Proof.
  intros Hdata Hsp Hmask Hfit Hgrad HG.
  unfold DKI.fit in Hfit. rewrite Hmask, Hsp in Hfit. cbn in Hfit.
  destruct (_model_fit _ _ _) as [f|e] eqn:Ef; [|done]. cbn in Hfit.
  injection Hfit as <-.
  destruct (DKI._model self0) as [m|f0]; simpl in Ef; [|done].
  destruct (contract _ _ _ _ Ef) as [Hsh Hpred].
  destruct (Hpred gtab (DKI._S0 self0) PNone) as (rowsP & Hout & Hk & Hcols).
  rewrite HG in Hcols.
  assert (Hflat : length (concat rowsP) = X * Y * Z).
  { rewrite concat_singletons by done. unfold wf_volume in Hdata.
    rewrite Hk, Hdata, Hsp. done. }
  split; [done|]. unfold DKI.prediction, DKI.predict. simpl.
  rewrite Hout, Hgrad. simpl. rewrite Hout. simpl.
  split; [done|].
  change (removelast [1; X; Y; Z; nmeas data]) with [1; X; Y; Z] in Hsh.
  rewrite Hsh, HG, squeeze_volume. unfold squeeze. split.
  - intros (HX & HY & HZ). rewrite !filter_cons_True by done. simpl. done.
  - intros Hsome Hall. rewrite !filter_cons, filter_nil.
    destruct (decide (X ≠ 1)), (decide (Y ≠ 1)), (decide (Z ≠ 1));
      try (exfalso; tauto); try (exfalso; lia);
      (case_decide as Hl; [simpl in Hl; lia|]); simpl; eauto.
Qed.
End PredictMore.

(** * Further properties of the factory *)

Section FactoryMore.
Context {V : Type} `{!Numeric V} `{!Dipy V}.
Variable cpu_count : nat.
Import ModelFactory.

(** X15: under the names "S0" and "B0" the factory does not convert
    the gradient table: given an [S0] option other than [None] it builds
    the baseline model for every gradient array, also one the adapter
    would reject, prints nothing, and the model predicts that [S0]. *)
Theorem factory_baseline_skips_adapter (gtab : Gradient.ndarray V) name
    (kwargs : gmap string (pyval V)) (v : pyval V) :
  lower name ∈ ["s0"; "b0"] →
  kwargs !! "S0" = Some v →
  v ≠ PNone →
  ∃ m, init cpu_count gtab name kwargs = ([], Ok (IB0 m))
       ∧ ∀ gradient, B0.predict m gradient = v.
Proof.
  intros Hname Hv Hnone. exists (B0.mk v). split; [|done].
  unfold init, pop_S0. rewrite decide_True by done. rewrite Hv. simpl.
  by destruct v.
Qed.

Lemma update_lookup (param kwargs : gmap string (pyval V)) k :
  update param kwargs !! k
  = match kwargs !! k with
    | Some v => Some v
    | None => param !! k
    end.
Proof.
  unfold update. rewrite lookup_union.
  by destruct (kwargs !! k), (param !! k).
Qed.

(** X16: for the two prefix-matched models the caller's options take
    precedence over the factory's defaults, option by option, and the
    defaults fill in what the caller left out. *)
Theorem factory_options_override_defaults (gtab : Gradient.ndarray V) name
    (kwargs : gmap string (pyval V)) out g :
  Gradient._rasb2dipy gtab = (out, Ok g) →
  (startswith (lower name) "3dshore" = true →
   ∃ p, init cpu_count gtab name kwargs = (out, Ok (IShore g p))
        ∧ (∀ k v, kwargs !! k = Some v → p !! k = Some v)
        ∧ (∀ k, kwargs !! k = None → p !! k = shore_param !! k))
  ∧ (startswith (lower name) "3dshore" = false →
     startswith (lower name) "sfm" = true →
     ∃ p, init cpu_count gtab name kwargs = (out, Ok (ISFM g p))
          ∧ (∀ k v, kwargs !! k = Some v → p !! k = Some v)
          ∧ (∀ k, kwargs !! k = None → p !! k = sfm_param !! k)).
Proof.
  intros Hg. split.
  - intros Hp. exists (update shore_param kwargs). split; [|split].
    + unfold init.
      rewrite decide_False by (by apply (prefix_not_baseline name "3dshore")).
      by rewrite Hg, Hp.
    + intros k v Hk. by rewrite update_lookup, Hk.
    + intros k Hk. by rewrite update_lookup, Hk.
  - intros Hshore Hp. exists (update sfm_param kwargs). split; [|split].
    + unfold init.
      rewrite decide_False by (by apply (prefix_not_baseline name "sfm")).
      rewrite Hg. simpl. by rewrite Hshore, Hp.
    + intros k v Hk. by rewrite update_lookup, Hk.
    + intros k Hk. by rewrite update_lookup, Hk.
Qed.
End FactoryMore.

(** * The statements at concrete inputs *)

Module Examples.
Import Example.
Import QArith.
Local Open Scope nat_scope.

Lemma toy_shape_contract : shape_contract (V := Q).
Proof.
  intros m sh rows f [= <-]. split; [done|].
  intros g s0 st. exists (toy_predict rows g s0). split; [done|].
  unfold toy_predict. split; [by rewrite length_imap|].
  apply Forall_forall. intros r Hr. apply elem_of_lookup_imap in Hr as (i & row & -> & _).
  unfold toy_voxel. by rewrite length_map.
Qed.

Lemma toy_predict_aligned (rows : list (list Q)) (g : Gradient.GradientTable Q) s :
  length s = length rows →
  toy_predict rows g (Some s) = zip_with (λ r x, toy_voxel r (Some x) g) rows s.
Proof.
  unfold toy_predict. simpl. revert s.
  induction rows as [|r rows IH]; intros [|x s] Hlen; simpl in *; try done.
  f_equal. rewrite <- IH by lia. by apply imap_ext.
Qed.

Lemma toy_voxelwise : voxelwise (V := Q) (λ _ _ g _ r x, toy_voxel r x g).
Proof.
  intros m n rows. exists ([length rows], rows). split; [done|]. split; [done|].
  intros g st [s|] HS; simpl.
  - rewrite toy_predict_aligned; [done|]. by apply HS.
  - unfold toy_predict. simpl. f_equal. clear.
    induction rows as [|r rows IH]; simpl; [done|]. f_equal.
    rewrite <- IH. by apply imap_ext.
Qed.


(** C2 at three threads against one, with a thresholded baseline map. *)
Lemma chunked_fit_predict_deterministic_witness :
  (1 ≤ 3)%Z
  ∧ wf_volume data4 ∧ wf_array3 S04
  ∧ DTI_fit_predict 8 empty_table (Some S04) None {[ "n_threads" := PInt 3 ]}
      data4 one_gradient PNone
    = DTI_fit_predict 8 empty_table (Some S04) None {[ "n_threads" := PInt 1 ]}
        data4 one_gradient PNone
  ∧ DKI_fit_predict empty_table (Some S04) None {[ "n_threads" := PInt 3 ]}
      data4 one_gradient
    = DKI_fit_predict empty_table (Some S04) None {[ "n_threads" := PInt 1 ]}
        data4 one_gradient.
Proof.
  split; [lia|]. split; [reflexivity|]. split; [reflexivity|]. split.
  - apply (proj1 (chunked_fit_predict_deterministic _ toy_voxelwise)
             8 empty_table (Some S04) None ∅ data4 one_gradient PNone 3%Z).
    + lia.
    + reflexivity.
    + intros s [= <-]. reflexivity.
    + intros m [=].
  - apply (proj2 (chunked_fit_predict_deterministic _ toy_voxelwise)
             empty_table (Some S04) None ∅ data4 one_gradient 3%Z).
Defined.

(** C3 at a table of two directions. *)
Lemma rasb2dipy_orientation_invariant_witness :
  2 ≠ 4
  ∧ Gradient._rasb2dipy gtab42 = Gradient._rasb2dipy gtab24
  ∧ Gradient._rasb2dipy gtab42
    = ([], Ok (Gradient.gradient_table [1000; 2000]%Q [[1; 0; 0]; [0; 1; 0]]%Q)).
Proof.
  split; [lia|].
  destruct (rasb2dipy_orientation_invariant 2
              [[1; 0]; [0; 1]; [0; 0]; [1000; 2000]]%Q
              [[1; 0; 0; 1000]; [0; 1; 0; 2000]]%Q)
    as (H1 & H2 & _).
  - lia.
  - split; [reflexivity|]. repeat constructor.
  - split; [reflexivity|]. repeat constructor.
  - split; [|exact H1]. unfold gtab42, gtab24. rewrite H1. symmetry. exact H2.
Defined.

(** C4 at a 1-d array of three elements. *)
Lemma rasb2dipy_value_error_iff_witness :
  Gradient.ndim short_gradient = 1 ∧ Gradient.size short_gradient ≠ 4
  ∧ ∃ msg, (Gradient._rasb2dipy short_gradient).2 = Raise (ValueError msg).
Proof.
  assert (H : Gradient.ndim short_gradient = 1 ∧ Gradient.size short_gradient ≠ 4).
  { split; [reflexivity|]. simpl. lia. }
  split; [apply H|]. split; [apply H|].
  apply (proj2 (proj1 rasb2dipy_value_error_iff short_gradient) H).
Defined.



(** C6 at the example baseline map. *)
Lemma b0_predict_identity_witness :
  PArray S04 ≠ PNone
  ∧ ∃ m, B0.__init__ one_gradient (PArray S04) = Ok m
         ∧ (∀ gradient, B0.predict m gradient = PArray S04)
         ∧ (∀ data, B0.fit m data = m)
         ∧ (∀ calls, (B0.run m calls).1 = m
                     ∧ Forall (λ o, o = PArray S04) (B0.run m calls).2).
Proof.
  assert (H : PArray S04 ≠ @PNone Q) by discriminate.
  split; [exact H|]. exact (b0_predict_identity one_gradient (PArray S04) H).
Defined.

(** C7 as stated fails through the factory: with no [S0] option the
    error is the [KeyError] of the factory's lookup, not the
    constructor's [ValueError]. *)
Lemma factory_baseline_without_S0_is_key_error :
  B0.__init__ one_gradient PNone = Raise (ValueError "S0 must be provided")
  ∧ (ModelFactory.init 8 one_gradient "S0" ∅).2 = Raise (KeyError "S0")
  ∧ (ModelFactory.init 8 one_gradient "S0" ∅).2
    ≠ Raise (ValueError "S0 must be provided").
Proof.
  split; [reflexivity|]. split; [vm_compute; reflexivity|]. vm_compute. discriminate.
Qed.

(** C7 as amended, under the name "B0". *)
Lemma baseline_model_requires_S0_witness :
  ModelFactory.lower "B0" ∈ ["s0"; "b0"]
  ∧ (∅ : gmap string (pyval Q)) !! "S0" = None
  ∧ ModelFactory.init 8 one_gradient "B0" ∅ = ([], Raise (KeyError "S0"))
  ∧ ({[ "S0" := PNone ]} : gmap string (pyval Q)) !! "S0" = Some PNone
  ∧ ModelFactory.init 8 one_gradient "B0" {[ "S0" := PNone ]}
    = ([], Raise (ValueError "S0 must be provided")).
Proof.
  assert (Hname : ModelFactory.lower "B0" ∈ ["s0"; "b0"]).
  { apply (bool_decide_unpack _). vm_compute. reflexivity. }
  split; [exact Hname|]. split; [reflexivity|]. split.
  - apply (proj2 (baseline_model_requires_S0 8) one_gradient "B0" ∅ Hname). reflexivity.
  - split; [reflexivity|].
    apply (proj2 (baseline_model_requires_S0 8) one_gradient "B0" _ Hname). reflexivity.
Defined.


End Examples.

(** * The further properties at concrete inputs *)

Module ExtraExamples.
Import Example.
Import QArith.
Local Open Scope nat_scope.

(** X2 at an array of shape [(3, 5)]: it is converted. *)
Lemma rasb2dipy_2d_outcome_witness :
  (3 = 4 ∨ 3 < 5) ∧ ∃ t, (Gradient._rasb2dipy gtab35).2 = Ok t.
Proof.
  assert (H : 3 = 4 ∨ 3 < 5) by (right; lia).
  split; [exact H|].
  exact (proj2 (proj1 (rasb2dipy_2d_outcome 3 5 _)) H).
Defined.


(** X5 at an option named "foo". *)
Lemma wrappers_forward_allowed_options_only_witness :
  ¬ "foo" ∈ allowed_kwargs
  ∧ "foo" ≠ "n_threads"
  ∧ DTI.__init__ 8 empty_table None (Some mask4) (<["foo" := PInt 1]> ∅)
    = DTI.__init__ 8 empty_table None (Some mask4) ∅
  ∧ DKI.__init__ empty_table (Some S04) None (<["foo" := PInt 1]> ∅)
    = DKI.__init__ empty_table (Some S04) None ∅.
Proof.
  assert (H1 : ¬ "foo" ∈ allowed_kwargs).
  { apply (bool_decide_eq_false_1 _). reflexivity. }
  assert (H2 : "foo" ≠ "n_threads") by discriminate.
  split; [exact H1|]. split; [exact H2|]. split.
  - exact (proj1 (proj2 (proj2 (wrappers_forward_allowed_options_only
             8 empty_table None (Some mask4) ∅)) "foo" (PInt 1) H1) H2).
  - exact (proj2 (proj2 (proj2 (wrappers_forward_allowed_options_only
             8 empty_table (Some S04) None ∅)) "foo" (PInt 1) H1)).
Defined.

(** X6 at the example baseline map and mask. *)
Lemma baseline_aligned_with_mask_witness :
  wf_array3 S04 ∧ wf_array3 mask4
  ∧ DKI.__init__ empty_table (Some S04) (Some mask4) ∅ = Ok dki_constructed
  ∧ ∃ msk s, DKI._mask dki_constructed = Some msk ∧ DKI._S0 dki_constructed = Some s
             ∧ ashape msk = ashape S04
             ∧ length s = count_true (aflat msk).
Proof.
  assert (H : DKI.__init__ empty_table (Some S04) (Some mask4) ∅ = Ok dki_constructed)
    by (vm_compute; reflexivity).
  split; [reflexivity|]. split; [reflexivity|]. split; [exact H|].
  refine (proj2 (baseline_aligned_with_mask 8 empty_table (Some S04) (Some mask4) ∅ _ _)
            dki_constructed H).
  - intros s [= <-]. reflexivity.
  - intros m [= <-]. reflexivity.
Defined.

(** X7 at the example mask. *)
Lemma DKI_mask_needs_baseline_witness :
  DTI.thread_count 8 (∅ : gmap string (pyval Q)) = Ok 8
  ∧ DKI.__init__ empty_table None (Some mask4) ∅
    = Raise (TypeError "'NoneType' object is not subscriptable")
  ∧ ∃ m, DTI.__init__ 8 empty_table None (Some mask4) ∅ = Ok m
         ∧ DTI._mask m = Some mask4 ∧ DTI._S0 m = None.
Proof.
  assert (H : DTI.thread_count 8 (∅ : gmap string (pyval Q)) = Ok 8) by reflexivity.
  split; [exact H|].
  split.
  - exact (proj1 (DKI_mask_needs_baseline 8 empty_table mask4 ∅)).
  - exact (proj2 (DKI_mask_needs_baseline 8 empty_table mask4 ∅) 8 H).
Defined.

(** X8 at a mask of another shape than the baseline map. *)
Lemma construction_shape_errors_witness :
  aflat S04 ≠ [] ∧ ashape mask_other ≠ ashape S04
  ∧ DKI.__init__ empty_table (Some S04) (Some mask_other) ∅
    = Raise (IndexError "boolean index did not match indexed array").
Proof.
  assert (H1 : aflat S04 ≠ []) by discriminate.
  assert (H2 : ashape mask_other ≠ ashape S04) by discriminate.
  split; [exact H1|]. split; [exact H2|].
  exact (proj2 (proj1 (construction_shape_errors 8 empty_table S04 mask_other ∅) H1 H2)).
Defined.

(** X9 at the example wrapper. *)
Lemma DTI_fit_invariants_witness :
  DTI.fit dti_constructed data4 = Ok dti_fitted
  ∧ length (DTI._model dti_fitted) = length (DTI._model dti_constructed)
  ∧ DTI._mask dti_fitted = Some mask4.
Proof.
  assert (H : DTI.fit dti_constructed data4 = Ok dti_fitted) by (vm_compute; reflexivity).
  split; [exact H|].
  destruct (DTI_fit_invariants dti_constructed dti_fitted data4 H)
    as (H1 & _ & _ & _ & H2 & _).
  split; [exact H1|exact H2].
Defined.


(** X11 at three masked voxels and two sub-models: chunks of two
    voxels and of one voxel. *)
Lemma DTI_fit_chunk_sizes_witness :
  wf_volume data4
  ∧ DTI.fit dti_constructed data4 = Ok dti_fitted
  ∧ ∃ fits,
      DTI._model dti_fitted = map Fit fits
      ∧ map fit_shape fits = [[2]; [1]].
Proof.
  assert (H : DTI.fit dti_constructed data4 = Ok dti_fitted) by (vm_compute; reflexivity).
  assert (Hd : wf_volume data4) by reflexivity.
  split; [exact Hd|]. split; [exact H|].
  destruct (DTI_fit_chunk_sizes Examples.toy_shape_contract dti_constructed dti_fitted data4 Hd)
    as (fits & H1 & H2 & _).
  - intros m [= <-]. reflexivity.
  - exact H.
  - exists fits. split; [exact H1|exact H2].
Defined.


(** X13 at the fitted example wrapper, which has two sub-models. *)
Lemma predict_warning_count_witness :
  DTI._model dti_fitted ≠ []
  ∧ (DTI.predict dti_fitted (Gradient.Arr2 4 4 rows44) PNone).1
    = [Gradient.warning; Gradient.warning].
Proof.
  assert (H : DTI._model dti_fitted ≠ []) by discriminate.
  split; [exact H|].
  exact (proj1 (predict_warning_count rows44) dti_fitted PNone H).
Defined.

(** X14 at a volume of shape [(2, 2, 2)]. *)
Lemma DKI_unmasked_predict_witness :
  wf_volume data8
  ∧ DKI._mask dki_unmasked = None
  ∧ DKI.fit dki_unmasked data8 = Ok dki_unmasked_fitted
  ∧ (DKI.predict dki_unmasked_fitted one_gradient).2
    = Ok (mk_ndarr [2; 2; 2] (DKI.prediction dki_unmasked_fitted one_table)).
Proof.
  assert (Hd : wf_volume data8) by reflexivity.
  assert (Hm : DKI._mask dki_unmasked = None) by reflexivity.
  assert (Hf : DKI.fit dki_unmasked data8 = Ok dki_unmasked_fitted)
    by (vm_compute; reflexivity).
  assert (Hg : Gradient._rasb2dipy one_gradient = ([], Ok one_table))
    by (vm_compute; reflexivity).
  split; [exact Hd|]. split; [exact Hm|]. split; [exact Hf|].
  destruct (DKI_unmasked_predict Examples.toy_shape_contract dki_unmasked dki_unmasked_fitted
              data8 one_gradient [] one_table 2 2 2 Hd eq_refl Hm Hf Hg eq_refl)
    as (_ & _ & Hok & _).
  apply Hok. repeat split; lia.
Defined.

(** X15 at a gradient array the adapter rejects. *)
Lemma factory_baseline_skips_adapter_witness :
  ModelFactory.lower "b0" ∈ ["s0"; "b0"]
  ∧ ({[ "S0" := PArray S04 ]} : gmap string (pyval Q)) !! "S0" = Some (PArray S04)
  ∧ PArray S04 ≠ PNone
  ∧ (Gradient._rasb2dipy short_gradient).2
    = Raise (ValueError "Missing gradient information.")
  ∧ ∃ m, ModelFactory.init 8 short_gradient "b0" {[ "S0" := PArray S04 ]}
         = ([], Ok (ModelFactory.IB0 m))
         ∧ ∀ gradient, B0.predict m gradient = PArray S04.
Proof.
  assert (H1 : ModelFactory.lower "b0" ∈ ["s0"; "b0"]).
  { apply (bool_decide_unpack _). vm_compute. reflexivity. }
  assert (H2 : ({[ "S0" := PArray S04 ]} : gmap string (pyval Q)) !! "S0"
               = Some (PArray S04)) by reflexivity.
  assert (H3 : PArray S04 ≠ @PNone Q) by discriminate.
  split; [exact H1|]. split; [exact H2|]. split; [exact H3|].
  split; [reflexivity|].
  exact (factory_baseline_skips_adapter 8 short_gradient "b0" _ _ H1 H2 H3).
Defined.

(** X16 at the option [zeta = 1] for the 3DShore model. *)
Lemma factory_options_override_defaults_witness :
  Gradient._rasb2dipy one_gradient = ([], Ok one_table)
  ∧ ModelFactory.startswith (ModelFactory.lower "3DShore") "3dshore" = true
  ∧ ∃ p, ModelFactory.init 8 one_gradient "3DShore" {[ "zeta" := PInt 1 ]}
         = ([], Ok (ModelFactory.IShore one_table p))
         ∧ p !! "zeta" = Some (PInt 1)
         ∧ p !! "radial_order" = Some (PInt 6).
Proof.
  assert (Hg : Gradient._rasb2dipy one_gradient = ([], Ok one_table))
    by (vm_compute; reflexivity).
  assert (Hp : ModelFactory.startswith (ModelFactory.lower "3DShore") "3dshore" = true)
    by (vm_compute; reflexivity).
  split; [exact Hg|]. split; [exact Hp|].
  destruct (proj1 (factory_options_override_defaults 8 one_gradient "3DShore"
                     {[ "zeta" := PInt 1 ]} [] one_table Hg) Hp)
    as (p & Hinit & Hover & Hdef).
  exists p. split; [exact Hinit|]. split.
  - apply Hover. reflexivity.
  - rewrite Hdef by reflexivity. reflexivity.
Defined.
End ExtraExamples.
